(** * A media ingestion and streaming server (index.js), verified

    Shallow embedding of the Express application in [src/index.js]: the
    helper functions ([getMimeType], [getExtensionFromMime],
    [sanitizeFilename]), the [/uploads] dispatch middleware, the upload and
    URL-ingestion handlers with their HLS packaging step, the watch page
    guard and the byte-range handler.

    The source file holds two variants of the server.  The one modelled
    here is the first, which packages media as HLS and stores uploads
    under their sanitized names.  The second has no packaging step and
    names stored files by a random token; its range handler and its MIME
    tables (up to the two HLS entries) are those of the first.  Its file
    naming is modelled in [Legacy].

    Conventions.
    - A JavaScript string is a [string]; each [ascii] stands for one code
      unit (HTTP header values reach Node as Latin-1, so this is exact for
      them).  Code units above 255 are outside the model; the sanitizer
      treats them like every other character outside its allow-list.
    - A JavaScript number is a [JS.num]: [NaN] or an exact integer.  The
      source only produces numbers through [parseInt], file sizes, [+], [-]
      and [*]; the model agrees with IEEE doubles while magnitudes stay
      within [JS.max_safe_integer] = 2^53 - 1.  Beyond it a double rounds,
      and the digits it prints are not the digits that were read; a
      statement that depends on the digits of a number states this bound.
    - The file system is a finite map from path to node, a node being a
      file with its bytes or a directory.  [path.join] is modelled without
      normalisation of [.] and [..] segments.  A write is modelled where it
      succeeds: on a path that is not a directory, inside a directory.  A
      statement about a stored file states these conditions.
    - Collaborators outside the repository (the encoding engine, the remote
      fetch client, the static file server, Multer) appear as explicit
      parameters or small documented models of their interface. *)

From Stdlib Require Import ZArith NArith Ascii String List Bool Lia.
From Stdlib Require Import DecimalString DecimalPos.
From stdpp Require Import base gmap strings list.

Local Open Scope string_scope.
Local Open Scope Z_scope.

(** ** Strings *)

Module Str.

Definition chars (s : string) : list ascii := list_ascii_of_string s.
Definition of_chars (l : list ascii) : string := string_of_list_ascii l.

Definition code (c : ascii) : N := N_of_ascii c.

Definition in_range (lo hi : N) (c : ascii) : bool :=
  ((lo <=? code c) && (code c <=? hi))%N.

Definition is_digit (c : ascii) : bool := in_range 48 57 c.
Definition is_upper (c : ascii) : bool := in_range 65 90 c.
Definition is_lower (c : ascii) : bool := in_range 97 122 c.

(** [String.prototype.toLowerCase] on Latin-1 code units: A-Z and the
    accented capitals U+00C0..U+00DE (except the multiplication sign). *)
Definition lower_char (c : ascii) : ascii :=
  if is_upper c || (in_range 192 222 c && negb (code c =? 215)%N)
  then ascii_of_N (code c + 32)
  else c.

Fixpoint toLowerCase (s : string) : string :=
  match s with
  | EmptyString => EmptyString
  | String c r => String (lower_char c) (toLowerCase r)
  end.

(** [Array.prototype.includes] on an array of strings. *)
Definition includes (l : list string) (x : string) : bool :=
  existsb (String.eqb x) l.

(** [s.replace(/pat/, "")] for a pattern made of literal characters and no
    [g] flag: the leftmost occurrence is removed. *)
Fixpoint remove_first (pat s : string) : string :=
  if String.prefix pat s then
    String.substring (String.length pat) (String.length s - String.length pat) s
  else
    match s with
    | EmptyString => EmptyString
    | String c r => String c (remove_first pat r)
    end.

(** [s.split(sep)] for a one-character separator; the result is never
    empty. *)
Fixpoint split (sep : ascii) (s : string) : list string :=
  match s with
  | EmptyString => [EmptyString]
  | String c r =>
      if Ascii.eqb c sep then EmptyString :: split sep r
      else match split sep r with
           | [] => [String c EmptyString]
           | p :: ps => String c p :: ps
           end
  end.

(** Truthiness of a string: every string but the empty one. *)
Definition truthy (s : string) : bool :=
  match s with EmptyString => false | _ => true end.

(** Lookup in an object literal used as a table. *)
Fixpoint table_get (t : list (string * string)) (k : string) : option string :=
  match t with
  | [] => None
  | (k', v) :: r => if String.eqb k k' then Some v else table_get r k
  end.

End Str.

(** ** Numbers *)

Module JS.

Inductive num : Type :=
| NaN
| Int (z : Z).

Definition add (a b : num) : num :=
  match a, b with Int x, Int y => Int (x + y) | _, _ => NaN end.
Definition sub (a b : num) : num :=
  match a, b with Int x, Int y => Int (x - y) | _, _ => NaN end.
Definition mul (a b : num) : num :=
  match a, b with Int x, Int y => Int (x * y) | _, _ => NaN end.

(** [a >= b]; every comparison with [NaN] is false. *)
Definition ge (a b : num) : bool :=
  match a, b with Int x, Int y => y <=? x | _, _ => false end.
Definition gt (a b : num) : bool :=
  match a, b with Int x, Int y => y <? x | _, _ => false end.

Definition truthy (a : num) : bool :=
  match a with NaN => false | Int z => negb (z =? 0) end.

(** [a || b] on numbers. *)
Definition or_else (a b : num) : num := if truthy a then a else b.

Definition show_Z (z : Z) : string := NilZero.string_of_int (Z.to_int z).

(** Number-to-string conversion, as in string concatenation and template
    literals. *)
Definition show (a : num) : string :=
  match a with NaN => "NaN" | Int z => show_Z z end.

(** White space skipped by [parseInt]: TAB, LF, VT, FF, CR, SP, NBSP. *)
Definition is_space (c : ascii) : bool :=
  let n := Str.code c in
  ((9 <=? n) && (n <=? 13) || (n =? 32) || (n =? 160))%N.

Fixpoint skip_space (s : string) : string :=
  match s with
  | String c r => if is_space c then skip_space r else s
  | EmptyString => EmptyString
  end.

Definition digit_value (c : ascii) : Z := Z.of_N (Str.code c) - 48.

(** Value of the longest prefix of decimal digits, [None] when there is no
    digit at the front. *)
Fixpoint digits (acc : option Z) (s : string) : option Z :=
  match s with
  | String c r =>
      if Str.is_digit c
      then digits (Some (10 * default 0 acc + digit_value c)) r
      else acc
  | EmptyString => acc
  end.

(** [parseInt(s, 10)]. *)
Definition parseInt (s : string) : num :=
  let body sign t :=
    match digits None t with
    | Some v => Int (sign * v)
    | None => NaN
    end in
  match skip_space s with
  | String "-" t => body (-1) t
  | String "+" t => body 1 t
  | t => body 1 t
  end.

(** [parseInt(x, 10)] where [x] may be [undefined]: the argument is first
    converted to the string "undefined", which has no digits. *)
Definition parseInt_opt (x : option string) : num :=
  match x with Some s => parseInt s | None => parseInt "undefined" end.

(** Value of a hexadecimal digit. *)
Definition hex_value (c : ascii) : option Z :=
  if Str.is_digit c then Some (digit_value c)
  else if Str.in_range 97 102 c then Some (Z.of_N (Str.code c) - 87)
  else if Str.in_range 65 70 c then Some (Z.of_N (Str.code c) - 55)
  else None.

(** Value of the longest prefix of hexadecimal digits. *)
Fixpoint hex_digits (acc : option Z) (s : string) : option Z :=
  match s with
  | String c r =>
      match hex_value c with
      | Some v => hex_digits (Some (16 * default 0 acc + v)) r
      | None => acc
      end
  | EmptyString => acc
  end.

(** [parseInt(s)], no radix given: after white space and sign, a prefix
    [0x] or [0X] selects radix 16, anything else radix 10. *)
Definition parseInt_auto (s : string) : num :=
  let decimal sign t :=
    match digits None t with
    | Some v => Int (sign * v)
    | None => NaN
    end in
  let body sign t :=
    match t with
    | String "0" (String x r) =>
        if Ascii.eqb x "x" || Ascii.eqb x "X" then
          match hex_digits None r with
          | Some v => Int (sign * v)
          | None => NaN
          end
        else decimal sign t
    | _ => decimal sign t
    end in
  match skip_space s with
  | String "-" t => body (-1) t
  | String "+" t => body 1 t
  | t => body 1 t
  end.

(** [Number.MAX_SAFE_INTEGER]: up to this magnitude every integer is a
    double, [parseInt] reads a numeral exactly and the number prints as
    its decimal digits. *)
Definition max_safe_integer : Z := 2 ^ 53 - 1.

(** A number the model holds exactly as the program does. *)
Definition safe (a : num) : Prop :=
  match a with
  | NaN => True
  | Int z => - max_safe_integer <= z <= max_safe_integer
  end.

End JS.

(** ** Paths (Node's posix [path] module) *)

Module Path.

Definition is_slash (c : ascii) : bool := Ascii.eqb c "/".
Definition is_dot (c : ascii) : bool := Ascii.eqb c ".".

Fixpoint drop_while (p : ascii -> bool) (l : list ascii) : list ascii :=
  match l with
  | c :: r => if p c then drop_while p r else l
  | [] => []
  end.

Fixpoint take_until (p : ascii -> bool) (l : list ascii) : list ascii :=
  match l with
  | c :: r => if p c then [] else c :: take_until p r
  | [] => []
  end.

(** The last path component, trailing slashes ignored, read right to left
    as the library's scanning loops do. *)
Definition component_rev (p : string) : list ascii :=
  take_until is_slash (drop_while is_slash (rev (Str.chars p))).

(** Splits the reversed component at its first dot, that is at the last dot
    of the component: (extension without dot, reversed; what precedes the
    dot, reversed). *)
Fixpoint split_dot (l : list ascii) : option (list ascii * list ascii) :=
  match l with
  | [] => None
  | c :: r =>
      if is_dot c then Some ([], r)
      else match split_dot r with
           | Some (e, b) => Some (c :: e, b)
           | None => None
           end
  end.

(** Reversed extension (dot last) of a reversed component.  Empty when the
    component has no dot, when its only dot is its first character, and for
    the component [..]. *)
Definition ext_rev (rb : list ascii) : list ascii :=
  match split_dot rb with
  | None => []
  | Some (_, []) => []
  | Some ([], [d]) => if is_dot d then [] else ["."%char]
  | Some (e, _) => e ++ ["."%char]
  end.

(** [path.basename(p)]. *)
Definition basename (p : string) : string :=
  Str.of_chars (rev (component_rev p)).

(** [path.extname(p)]. *)
Definition extname (p : string) : string :=
  Str.of_chars (rev (ext_rev (component_rev p))).

(** [path.parse(p).name]: the last component without its extension. *)
Definition parse_name (p : string) : string :=
  let rb := component_rev p in
  Str.of_chars (rev (drop (length (ext_rev rb)) rb)).

(** [path.join(a, b)], without normalisation. *)
Definition join (a b : string) : string := a +:+ "/" +:+ b.

End Path.

(** ** Configuration and helper functions of index.js *)

Definition mediaMimeTypes : list string :=
  [ "video/mp4"; "video/mkv"; "video/webm"; "video/avi"; "video/quicktime" ].

(** [path.join(__dirname, 'uploads')], relative to the application
    directory. *)
Definition uploadDir : string := "uploads".

Definition mimeTypes : list (string * string) :=
  [ (".mp4", "video/mp4");
    (".mkv", "video/x-matroska");
    (".webm", "video/webm");
    (".avi", "video/x-msvideo");
    (".mov", "video/quicktime");
    (".pdf", "application/pdf");
    (".docx", "application/vnd.openxmlformats-officedocument.wordprocessingml.document");
    (".txt", "text/plain");
    (".m3u8", "application/x-mpegURL");
    (".ts", "video/MP2T") ].

Definition getMimeType (filename : string) : string :=
  let ext := Str.toLowerCase (Path.extname filename) in
  default "application/octet-stream" (Str.table_get mimeTypes ext).

Definition mimeToExt : list (string * string) :=
  [ ("video/mp4", ".mp4");
    ("video/x-matroska", ".mkv");
    ("video/webm", ".webm");
    ("video/x-msvideo", ".avi");
    ("video/quicktime", ".mov");
    ("application/pdf", ".pdf");
    ("application/vnd.openxmlformats-officedocument.wordprocessingml.document", ".docx");
    ("text/plain", ".txt");
    ("application/x-mpegURL", ".m3u8");
    ("video/MP2T", ".ts") ].

(** [getExtensionFromMime(mimeType)]: [mimeToExt[mimeType] || ''].  An
    [undefined] argument finds no entry.  The lookup is modelled on the
    entries of the table; the members every object inherits
    ([constructor], [toString], ...) are outside the model, see
    [type_like]. *)
Definition getExtensionFromMime (mimeType : option string) : string :=
  default "" (mimeType ≫= Str.table_get mimeToExt).

(** A content type with a slash in it, as every MIME type has: no member
    inherited by the table has such a name, so the table lookup finds its
    own entries only. *)
Definition type_like (mimeType : string) : Prop :=
  existsb (fun c => Ascii.eqb c "/") (Str.chars mimeType) = true.

(** The character class [[a-zA-Z0-9.\-_]] of [sanitizeFilename]. *)
Definition safe_char (c : ascii) : bool :=
  Str.is_lower c || Str.is_upper c || Str.is_digit c
  || Ascii.eqb c "." || Ascii.eqb c "-" || Ascii.eqb c "_".

Definition sanitize_char (c : ascii) : ascii :=
  if safe_char c then c else "_"%char.

Fixpoint sanitizeFilename (filename : string) : string :=
  match filename with
  | EmptyString => EmptyString
  | String c r => String (sanitize_char c) (sanitizeFilename r)
  end.

(** ** File system, observable events and the handler monad *)

Inductive node : Type :=
| File (content : list Byte.byte)
| Dir.

(** One output of an encoding job, as configured through the fluent
    command builder: [.output(..).videoCodec(..).size(..).videoBitrate(..)
    .noAudio().outputOptions([..])]. *)
Record EncodeOutput : Type := {
  out_playlist : string;
  out_codec : string;
  out_size : string;
  out_bitrate : string;
  out_noAudio : bool;
  out_options : list string;
}.

Record EncodeJob : Type := {
  job_input : string;
  job_options : list string;
  job_outputs : list EncodeOutput;
}.

Inductive event : Type :=
| EvMkdir (dir : string)
| EvEncodeStart (job : EncodeJob)
| EvEncodeEnd (job : EncodeJob) (succeeded : bool)
| EvWriteFile (path : string)
| EvFetch (url : string)
| EvOpenRead (path : string).

Inductive error : Type :=
| MulterError (code message : string)
| Error (message : string).

Record World : Type := {
  fs : gmap string node;
  trace : list event;
}.

Inductive outcome (A : Type) : Type :=
| Ok (a : A)
| Throw (e : error).
Arguments Ok {A} a.
Arguments Throw {A} e.

(** A computation reads and updates the world and either returns or
    throws. *)
Definition M (A : Type) : Type := World -> outcome A * World.

Definition ret {A} (a : A) : M A := fun w => (Ok a, w).
Definition throw {A} (e : error) : M A := fun w => (Throw e, w).
Definition bind {A B} (m : M A) (k : A -> M B) : M B :=
  fun w => match m w with
           | (Ok a, w') => k a w'
           | (Throw e, w') => (Throw e, w')
           end.
(** [try { m } catch (error) { h error }] *)
Definition try_catch {A} (m : M A) (h : error -> M A) : M A :=
  fun w => match m w with
           | (Ok a, w') => (Ok a, w')
           | (Throw e, w') => h e w'
           end.

Notation "x <- m ;; k" := (bind m (fun x => k))
  (at level 100, m at next level, k at level 200, right associativity).
Notation "m ;;; k" := (bind m (fun _ => k))
  (at level 100, k at level 200, right associativity).

Definition emit (e : event) : M unit :=
  fun w => (Ok tt, {| fs := fs w; trace := trace w ++ [e] |}).
Definition get_fs : M (gmap string node) := fun w => (Ok (fs w), w).
Definition put_fs (f : gmap string node) : M unit :=
  fun w => (Ok tt, {| fs := f; trace := trace w |}).

(** [fs.existsSync(p)] *)
Definition existsSync (p : string) : M bool :=
  f <- get_fs ;; ret (bool_decide (is_Some (f !! p))).

(** [fs.mkdirSync(p, { recursive: true })] *)
Definition mkdirSync (p : string) : M unit :=
  f <- get_fs ;; put_fs (<[p := Dir]> f) ;;; emit (EvMkdir p).

(** [fs.writeFileSync(p, data)] and a finished write stream on [p]: the
    file is created or replaced.  This is the write that succeeds; the
    system refuses it when [p] is a directory or when the parent of [p] is
    not a directory ([storable], [output_ready]). *)
Definition writeFile (p : string) (data : list Byte.byte) : M unit :=
  f <- get_fs ;; put_fs (<[p := File data]> f) ;;; emit (EvWriteFile p).

(** The conditions under which the system carries out a write: the path
    is not a directory, and it lies in a directory. *)
Definition not_directory (f : gmap string node) (p : string) : Prop :=
  f !! p <> Some Dir.
Definition is_directory (f : gmap string node) (p : string) : Prop :=
  f !! p = Some Dir.

(** A file name: one that designates an entry of the directory it is
    joined to, and not that directory or its parent, within the 255
    characters a file system takes for one name.  The multipart parser
    delivers no name that is empty, [.] or [..] (such a part is not handed
    on as a file), and neither does the path of a parsed URL. *)
Definition file_name (name : string) : Prop :=
  name <> "" /\ name <> "." /\ name <> ".." /\ (String.length name <= 255)%nat.

Definition unlink (p : string) : M unit :=
  f <- get_fs ;; put_fs (delete p f).

(** Size reported for a directory; it depends on the platform, and the
    properties below are about regular files. *)
Definition dir_size : Z := 4096.

(** [fs.statSync(p).size] *)
Definition statSync_size (p : string) : M Z :=
  f <- get_fs ;;
  match f !! p with
  | Some (File c) => ret (Z.of_nat (length c))
  | Some Dir => ret dir_size
  | None => throw (Error "ENOENT: no such file or directory")
  end.

(** Bytes delivered by a read stream: [None] when the stream fails with an
    error event (a directory, a missing file). *)
Definition stream := option (list Byte.byte).

(** [fs.createReadStream(p, { start, end })].  Node validates the window
    when the stream is constructed: both offsets must be non-negative
    integers with [start <= end], otherwise the call throws.  The stream
    then delivers the bytes from offset [start] up to and including offset
    [end], or up to the end of the file if that comes first.  The thrown
    error is represented by its code.  Node also refuses offsets above
    [JS.max_safe_integer]; numbers of that size are outside the exact
    range of the model. *)
Definition createReadStream_range (p : string) (start end_ : JS.num) : M stream :=
  match start, end_ with
  | JS.Int s, JS.Int e =>
      if (0 <=? s) && (0 <=? e) && (s <=? e) then
        emit (EvOpenRead p) ;;;
        f <- get_fs ;;
        match f !! p with
        | Some (File c) => ret (Some (take (Z.to_nat (e - s + 1)) (drop (Z.to_nat s) c)))
        | _ => ret None
        end
      else throw (Error "ERR_OUT_OF_RANGE")
  | _, _ => throw (Error "ERR_OUT_OF_RANGE")
  end.

(** [fs.createReadStream(p)]: the whole file. *)
Definition createReadStream (p : string) : M stream :=
  emit (EvOpenRead p) ;;;
  f <- get_fs ;;
  match f !! p with
  | Some (File c) => ret (Some c)
  | _ => ret None
  end.

(** ** Responses *)

Inductive jval : Type :=
| JNull
| JStr (s : string)
| JMetadata (name : string) (size : JS.num) (type : string).

Inductive body : Type :=
| Text (s : string)
| Json (fields : list (string * jval))
| Piped (s : stream)
| WatchPage (manifestUrl : string) (name : string) (size : Z) (type : string).

Record response : Type := {
  status : Z;
  headers : list (string * string);
  payload : body;
}.

Definition send (code : Z) (text : string) : response :=
  {| status := code; headers := []; payload := Text text |}.
Definition json (code : Z) (fields : list (string * jval)) : response :=
  {| status := code; headers := []; payload := Json fields |}.

Definition nl : string := String "010"%char EmptyString.

(** ** The HLS packaging step *)

Module Level.
Record t : Type := {
  name : string;
  size : string;
  bitrate : string;
}.
End Level.

Definition qualityLevels : list Level.t :=
  [ {| Level.name := "720p"; Level.size := "1280x720"; Level.bitrate := "2800k" |};
    {| Level.name := "480p"; Level.size := "854x480"; Level.bitrate := "1400k" |};
    {| Level.name := "360p"; Level.size := "640x360"; Level.bitrate := "800k" |} ].

(** The [.output(...)] chain added for one quality level. *)
Definition level_output (hlsOutputDir : string) (level : Level.t) : EncodeOutput :=
  {| out_playlist := Path.join hlsOutputDir (Level.name level +:+ ".m3u8");
     out_codec := "libx264";
     out_size := Level.size level;
     out_bitrate := Level.bitrate level;
     out_noAudio := true;
     out_options := [ "-hls_segment_filename";
                      Path.join hlsOutputDir (Level.name level +:+ "_%03d.ts") ] |}.

(** The command handed to [.run()]: one input, every quality level as an
    output. *)
Definition hls_command (options : list string) (input hlsOutputDir : string) : EncodeJob :=
  {| job_input := input;
     job_options := options;
     job_outputs := map (level_output hlsOutputDir) qualityLevels |}.

(** One [#EXT-X-STREAM-INF] entry, as appended by the [forEach] callback:
    [parseInt(level.bitrate) * 1000], the radix left out. *)
Definition master_entry (level : Level.t) : string :=
  "#EXT-X-STREAM-INF:BANDWIDTH="
    +:+ JS.show (JS.mul (JS.parseInt_auto (Level.bitrate level)) (JS.Int 1000))
    +:+ ",RESOLUTION=" +:+ Level.size level +:+ nl
    +:+ Level.name level +:+ ".m3u8" +:+ nl.

Definition masterPlaylist : string :=
  fold_left (fun acc level => acc +:+ master_entry level) qualityLevels
            ("#EXTM3U" +:+ nl +:+ "#EXT-X-VERSION:3" +:+ nl).

Definition upload_options : list string :=
  [ "-profile:v baseline"; "-level 3.0"; "-s"; "640x360"; "-start_number"; "0";
    "-hls_time"; "10"; "-hls_list_size"; "0"; "-f"; "hls" ].

Definition upload_url_options : list string :=
  [ "-profile:v baseline"; "-level 3.0"; "-start_number"; "0";
    "-hls_time"; "10"; "-hls_list_size"; "0"; "-f"; "hls" ].

(** The encoding engine: given the command and the file system it runs on,
    it leaves a file system behind and either ends ([None]) or reports an
    error ([Some message]). *)
Definition Engine : Type := EncodeJob -> gmap string node -> option string * gmap string node.

(** A file received by Multer ([req.file]). *)
Module ReqFile.
Record t : Type := {
  originalname : string;
  mimetype : string;
  filename : string;
  path : string;
  size : Z;
}.
End ReqFile.

(** The file in the multipart field [file], as Multer presents it to the
    file filter and the storage engine. *)
Record Part : Type := {
  part_originalname : string;
  part_mimetype : string;
  part_content : list Byte.byte;
}.

(** What the remote fetch client resolves with. *)
Record FetchResponse : Type := {
  content_type : option string;
  content_length : option string;
  data : list Byte.byte;
}.

Definition bytes_of (s : string) : list Byte.byte := list_byte_of_string s.

(** ** Transcode job states, read off the events of a request *)

Inductive JobState : Type :=
| Pending
| Running
| Published
| Failed.

(** The job of one conversion: it starts running when the engine is
    invoked, fails when the engine reports an error, and is published by
    the write of its master manifest. *)
Definition job_step (master : string) (st : JobState) (e : event) : JobState :=
  match st, e with
  | Pending, EvEncodeStart _ => Running
  | Running, EvEncodeEnd _ false => Failed
  | Running, EvWriteFile p => if String.eqb p master then Published else Running
  | _, _ => st
  end.

Definition job_state (master : string) (evs : list event) : JobState :=
  fold_left (job_step master) evs Pending.

Definition is_encode_start (e : event) : bool :=
  match e with EvEncodeStart _ => true | _ => false end.

Definition is_open_read (e : event) : bool :=
  match e with EvOpenRead _ => true | _ => false end.

(** Number of engine invocations among the events. *)
Definition encode_count (evs : list event) : nat :=
  length (filter (fun e => is_encode_start e = true) evs).

(** Output directory and master manifest of the asset stored under
    [storedName]. *)
Definition hls_dir (storedName : string) : string :=
  Path.join uploadDir (Path.parse_name storedName).
Definition master_path (storedName : string) : string :=
  Path.join (hls_dir storedName) "master.m3u8".

(** Running [job], the engine leaves path [p] as it found it. *)
Definition engine_preserves (engine : Engine) (job : EncodeJob) (p : string) : Prop :=
  forall f, snd (engine job f) !! p = f !! p.

(** The file system once the output directory of [storedName] is ensured,
    and the event this takes. *)
Definition ensure_dir (storedName : string) (f : gmap string node) : gmap string node :=
  if bool_decide (is_Some (f !! hls_dir storedName)) then f
  else <[hls_dir storedName := Dir]> f.
Definition ensure_dir_events (storedName : string) (f : gmap string node) : list event :=
  if bool_decide (is_Some (f !! hls_dir storedName)) then []
  else [EvMkdir (hls_dir storedName)].

(** A file can be stored under [name] in the upload directory, which
    exists from start-up on. *)
Definition storable (f : gmap string node) (name : string) : Prop :=
  file_name name /\ not_directory f (Path.join uploadDir name).

(** The master manifest of the asset stored under [storedName] can be
    written: its output directory is in place. *)
Definition output_ready (f : gmap string node) (storedName : string) : Prop :=
  is_directory f (hls_dir storedName) /\ not_directory f (master_path storedName).

(** The master manifest, line by line. *)
Definition manifest_lines : list string :=
  [ "#EXTM3U";
    "#EXT-X-VERSION:3";
    "#EXT-X-STREAM-INF:BANDWIDTH=2800000,RESOLUTION=1280x720";
    "720p.m3u8";
    "#EXT-X-STREAM-INF:BANDWIDTH=1400000,RESOLUTION=854x480";
    "480p.m3u8";
    "#EXT-X-STREAM-INF:BANDWIDTH=800000,RESOLUTION=640x360";
    "360p.m3u8" ].

Definition unlines (l : list string) : string :=
  fold_right (fun line rest => line +:+ nl +:+ rest) "" l.

(** ** Vocabulary of the range handler's properties *)

(** Requests that pass the guards of the handler: the file is stored and
    its name maps to a media type. *)
Definition stored_media (w : World) (filename : string) (content : list Byte.byte) : Prop :=
  fs w !! Path.join uploadDir filename = Some (File content)
  /\ Str.includes mediaMimeTypes (getMimeType filename) = true.

Definition file_size (content : list Byte.byte) : Z := Z.of_nat (length content).

Definition body_416 (start : JS.num) (fileSize : Z) : string :=
  "Requested range not satisfiable" +:+ nl
    +:+ JS.show start +:+ " >= " +:+ JS.show (JS.Int fileSize).

Definition opened (w : World) (p : string) : World :=
  {| fs := fs w; trace := trace w ++ [EvOpenRead p] |}.

(** The bytes at offsets [s .. e] of [content]. *)
Definition window (content : list Byte.byte) (s e : Z) : list Byte.byte :=
  take (Z.to_nat (e - s + 1)) (drop (Z.to_nat s) content).

(** ** File naming in the second variant of the server *)

Module Legacy.

(** [uuidv4() + path.extname(file.originalname)]; [token] is the value the
    generator returned. *)
Definition stored_name (token originalname : string) : string :=
  token +:+ Path.extname originalname.

End Legacy.

(** ** Sample collaborators, used to run the handlers on concrete requests *)

(** Identity stands in for [encodeURIComponent]: it leaves the characters
    of a sanitized file name as they are. *)
Definition sample_encode : string -> string := fun s => s.

(** An engine that writes every requested playlist and ends normally. *)
Definition engine_ok : Engine :=
  fun job f =>
    (None, foldr (fun o m => <[out_playlist o := File (bytes_of "#EXTM3U")]> m) f (job_outputs job)).

(** An engine that reports an error and writes nothing. *)
Definition engine_fail : Engine :=
  fun _ f => (Some "Conversion failed", f).

Definition no_fetch : string -> option FetchResponse := fun _ => None.
Definition no_pathname : string -> option string := fun _ => None.
Definition sample_formatBytes : Z -> string := fun _ => "500 MB".
Definition sample_origin : string := "http://localhost:8000".
Definition sample_max : Z := 500 * 1024 * 1024.

Definition empty_world : World := {| fs := ∅; trace := [] |}.

(** A stored 50-byte media file. *)
Definition sample_content : list Byte.byte :=
  bytes_of "0123456789abcdefghijklmnopqrstuvwxyzABCDEFGHIJKLMN".

Definition world50 : World :=
  {| fs := {[ "uploads/clip.mp4" := File sample_content ]}; trace := [] |}.

(** [req.file] for a 50-byte upload declared as [video/mp4]. *)
Definition sample_file : ReqFile.t :=
  {| ReqFile.originalname := "clip.mp4";
     ReqFile.mimetype := "video/mp4";
     ReqFile.filename := "clip.mp4";
     ReqFile.path := "uploads/clip.mp4";
     ReqFile.size := 50 |}.

(** The multipart field behind it. *)
Definition sample_part : Part :=
  {| part_originalname := "clip.mp4";
     part_mimetype := "video/mp4";
     part_content := sample_content |}.

(** Two text uploads whose names differ only in a character the sanitizer
    replaces. *)
Definition part_a : Part :=
  {| part_originalname := "a b.txt";
     part_mimetype := "text/plain";
     part_content := bytes_of "first" |}.

Definition part_b : Part :=
  {| part_originalname := "a_b.txt";
     part_mimetype := "text/plain";
     part_content := bytes_of "second" |}.

(** A remote server that sends the 50 sample bytes without a content type,
    and the path of the URL they are fetched from. *)
Definition sample_url : string := "http://example.com/video.mp4".

Definition untyped_response : FetchResponse :=
  {| content_type := None; content_length := Some "50"; data := sample_content |}.

Definition sample_fetch : string -> option FetchResponse :=
  fun u => if String.eqb u sample_url then Some untyped_response else None.

Definition sample_pathname : string -> option string :=
  fun u => if String.eqb u sample_url then Some "/video.mp4" else None.

(** A Matroska upload: declared type [video/mkv], stored as [movie.mkv]. *)
Definition mkv_file : ReqFile.t :=
  {| ReqFile.originalname := "movie.mkv";
     ReqFile.mimetype := "video/mkv";
     ReqFile.filename := "movie.mkv";
     ReqFile.path := "uploads/movie.mkv";
     ReqFile.size := 50 |}.

Definition world_mkv : World :=
  {| fs := {[ "uploads/movie.mkv" := File sample_content ]}; trace := [] |}.

(** A published package next to its source file. *)
Definition world_published : World :=
  {| fs := <[ "uploads/clip/master.m3u8" := File (bytes_of masterPlaylist) ]>
           (<[ "uploads/clip/720p_000.ts" := File sample_content ]>
            (<[ "uploads/clip" := Dir ]>
             {[ "uploads/clip.mp4" := File sample_content ]}));
     trace := [] |}.

(** ** Decimal numerals *)

(** Value of a decimal numeral read left to right on top of [acc], the way
    [JS.digits] accumulates it. *)
Fixpoint uint_value (d : Decimal.uint) (acc : Z) : Z :=
  match d with
  | Decimal.Nil => acc
  | Decimal.D0 l => uint_value l (10 * acc + 0)
  | Decimal.D1 l => uint_value l (10 * acc + 1)
  | Decimal.D2 l => uint_value l (10 * acc + 2)
  | Decimal.D3 l => uint_value l (10 * acc + 3)
  | Decimal.D4 l => uint_value l (10 * acc + 4)
  | Decimal.D5 l => uint_value l (10 * acc + 5)
  | Decimal.D6 l => uint_value l (10 * acc + 6)
  | Decimal.D7 l => uint_value l (10 * acc + 7)
  | Decimal.D8 l => uint_value l (10 * acc + 8)
  | Decimal.D9 l => uint_value l (10 * acc + 9)
  end.

(** The header [bytes=s-e] and the open-ended header [bytes=s-]. *)
Definition range_header (s e : Z) : string :=
  "bytes=" +:+ JS.show_Z s +:+ "-" +:+ JS.show_Z e.
Definition open_range_header (s : Z) : string :=
  "bytes=" +:+ JS.show_Z s +:+ "-".

(** Characters an extension is made of: neither dot nor slash. *)
Definition plain (c : ascii) : Prop := Path.is_dot c = false /\ Path.is_slash c = false.

Definition no_dash (s : string) : Prop :=
  Forall (fun c => Ascii.eqb c "-" = false) (Str.chars s).

(** An upload of a type that is not on the allow-list, a media upload
    whose name has no extension, and a remote server that declares its 50
    bytes as [video/mp4]. *)
Definition part_exe : Part :=
  {| part_originalname := "setup.exe";
     part_mimetype := "application/x-msdownload";
     part_content := bytes_of "MZ" |}.

Definition part_noext : Part :=
  {| part_originalname := "clip";
     part_mimetype := "video/mp4";
     part_content := sample_content |}.

(** A second media upload with the stem of the sample file. *)
Definition part_webm : Part :=
  {| part_originalname := "clip.webm";
     part_mimetype := "video/webm";
     part_content := bytes_of "webm" |}.

Definition typed_response : FetchResponse :=
  {| content_type := Some "video/mp4"; content_length := Some "50"; data := sample_content |}.

Definition typed_fetch : string -> option FetchResponse :=
  fun u => if String.eqb u sample_url then Some typed_response else None.

Section App.

Set Default Proof Using "Type".

(** [MAX_UPLOAD_SIZE], read from the environment. *)
Variable MAX_UPLOAD_SIZE : Z.
(** [formatBytes], which computes with floating-point logarithms. *)
Variable formatBytes : Z -> string.
(** [encodeURIComponent]. *)
Variable encodeURIComponent : string -> string.
(** [req.protocol + "://" + req.get('host')]. *)
Variable origin : string.
(** The encoding engine behind [fluent-ffmpeg]. *)
Variable engine : Engine.
(** The remote fetch client ([axios]); [None] when the request fails. *)
Variable fetch : string -> option FetchResponse.
(** [new URL(u).pathname]; [None] when the constructor throws. *)
Variable url_pathname : string -> option string.

(** [await new Promise(...)] around the engine run: the promise resolves
    on the [end] event and rejects on [error]. *)
Definition run_ffmpeg (job : EncodeJob) : M unit :=
  emit (EvEncodeStart job) ;;;
  f <- get_fs ;;
  match engine job f with
  | (None, f') => put_fs f' ;;; emit (EvEncodeEnd job true)
  | (Some msg, f') => put_fs f' ;;; emit (EvEncodeEnd job false) ;;; throw (Error msg)
  end.

(** The conversion block shared, up to the input options, by both
    ingestion handlers: output directory, engine run, master playlist. *)
Definition convert_to_hls (options : list string) (input storedName : string) : M unit :=
  let hlsOutputDir := Path.join uploadDir (Path.parse_name storedName) in
  present <- existsSync hlsOutputDir ;;
  (if negb present then mkdirSync hlsOutputDir else ret tt) ;;;
  run_ffmpeg (hls_command options input hlsOutputDir) ;;;
  let masterPlaylistPath := Path.join hlsOutputDir "master.m3u8" in
  writeFile masterPlaylistPath (bytes_of masterPlaylist).

(** *** Multer: [upload.single('file')] *)

Definition allowedMimeTypes : list string :=
  mediaMimeTypes ++
  [ "application/pdf"; "application/msword";
    "application/vnd.openxmlformats-officedocument.wordprocessingml.document";
    "text/plain" ].

(** The [fileFilter] and the disk storage engine configured in the source:
    destination [uploadDir], file name [sanitizeFilename(originalname)].
    Multer writes the part to that path through a write stream, replacing
    what was there; when the part reaches the size limit it removes the
    file and fails with [LIMIT_FILE_SIZE] (the parser raises the limit
    event as soon as the bytes received are no fewer than the limit). *)
Definition multer_single (part : option Part) : M (option ReqFile.t) :=
  match part with
  | None => ret None
  | Some p =>
      if Str.includes allowedMimeTypes (part_mimetype p) then
        let sanitizedFilename := sanitizeFilename (part_originalname p) in
        let dest := Path.join uploadDir sanitizedFilename in
        let n := Z.of_nat (length (part_content p)) in
        if MAX_UPLOAD_SIZE <=? n then
          unlink dest ;;; throw (MulterError "LIMIT_FILE_SIZE" "File too large")
        else
          writeFile dest (part_content p) ;;;
          ret (Some {| ReqFile.originalname := part_originalname p;
                       ReqFile.mimetype := part_mimetype p;
                       ReqFile.filename := sanitizedFilename;
                       ReqFile.path := dest;
                       ReqFile.size := n |})
      else throw (MulterError "LIMIT_UNEXPECTED_FILE" "File type not supported!")
  end.

(** A part that passes the file filter and the size limit. *)
Definition accepted (p : Part) : Prop :=
  Str.includes allowedMimeTypes (part_mimetype p) = true
  /\ Z.of_nat (length (part_content p)) < MAX_UPLOAD_SIZE.

(** *** POST /upload *)

Definition post_upload (file : option ReqFile.t) : M response :=
  match file with
  | None => ret (json 400 [("error", JStr "No file uploaded.")])
  | Some f =>
      let isMedia := Str.includes mediaMimeTypes (ReqFile.mimetype f) in
      let originalFilename := ReqFile.filename f in
      let fileUrl := origin +:+ "/uploads/" +:+ encodeURIComponent originalFilename in
      if isMedia then
        try_catch
          (convert_to_hls upload_options (ReqFile.path f) originalFilename ;;;
           let watchUrl := origin +:+ "/watch/" +:+ encodeURIComponent originalFilename in
           ret (json 200 [("message", JStr "Media file uploaded and converted to HLS successfully.");
                          ("watchUrl", JStr watchUrl)]))
          (fun _ => ret (json 500 [("error", JStr "Error processing video for streaming.")]))
      else
        ret (json 200 [("message", JStr "File uploaded successfully.");
                       ("fileUrl", JStr fileUrl)])
  end.

(** *** The error-handling middleware *)

Definition error_middleware (err : error) : response :=
  match err with
  | MulterError code message =>
      if String.eqb code "LIMIT_FILE_SIZE" then
        json 413 [("error", JStr ("File is too large. Maximum size is "
                                    +:+ formatBytes MAX_UPLOAD_SIZE +:+ "."))]
      else if String.eqb code "LIMIT_UNEXPECTED_FILE" then
        json 400 [("error", JStr "File type not supported!")]
      else json 400 [("error", JStr message)]
  | Error message => json 500 [("error", JStr message)]
  end.

(** A route as Express runs it: an error thrown by the handler reaches the
    error-handling middleware. *)
Definition run_route (h : M response) (w : World) : response * World :=
  match h w with
  | (Ok r, w') => (r, w')
  | (Throw e, w') => (error_middleware e, w')
  end.

Definition app_post_upload (part : option Part) : World -> response * World :=
  run_route (file <- multer_single part ;; post_upload file).

(** *** POST /upload-url *)

(** A present, non-empty header value; [undefined] and the empty string are
    both falsy. *)
Definition header_value (h : option string) : option string :=
  match h with
  | Some s => if Str.truthy s then Some s else None
  | None => None
  end.

(** [response.headers['content-type'] || 'application/octet-stream'] *)
Definition url_mimeType (r : FetchResponse) : string :=
  default "application/octet-stream" (header_value (content_type r)).

(** The file name derived from the URL path, with the fallback used when
    the path has no last component. *)
Definition url_filename (pathname : string) (r : FetchResponse) : string :=
  let filename := Path.basename pathname in
  if negb (Str.truthy filename) || String.eqb filename "/" then
    let ext := getExtensionFromMime (content_type r) in
    "downloaded-file" +:+ ext
  else filename.

(** The download time and speed of the response, its [uploadTime] and the
    console output depend on the clock alone and are left out. *)
Definition post_upload_url (fileUrl : option string) : M response :=
  match header_value fileUrl with
  | None => ret (json 400 [("error", JStr "No URL provided.")])
  | Some fileUrl =>
      try_catch
        (emit (EvFetch fileUrl) ;;;
         match fetch fileUrl with
         | None => throw (Error "Request failed")
         | Some response =>
             match url_pathname fileUrl with
             | None => throw (Error "Invalid URL")
             | Some pathname =>
                 let filename := url_filename pathname response in
                 let mimeType := url_mimeType response in
                 let size := JS.or_else (JS.parseInt_opt (content_length response)) (JS.Int 0) in
                 let sanitizedFilename := sanitizeFilename filename in
                 let filePath := Path.join uploadDir sanitizedFilename in
                 writeFile filePath (data response) ;;;
                 let isMedia := Str.includes mediaMimeTypes mimeType in
                 urls <-
                   (if isMedia then
                      convert_to_hls upload_url_options filePath sanitizedFilename ;;;
                      ret (JStr (origin +:+ "/watch/" +:+ encodeURIComponent sanitizedFilename),
                           JNull)
                    else
                      ret (JNull,
                           JStr (origin +:+ "/uploads/" +:+ encodeURIComponent sanitizedFilename))) ;;
                 let metadata := JMetadata sanitizedFilename size mimeType in
                 ret (json 200
                        [("message",
                          JStr (if isMedia
                                then "Media file downloaded and converted to HLS successfully via URL."
                                else "File downloaded successfully via URL."));
                         ("watchUrl", fst urls);
                         ("fileUrl", snd urls);
                         ("metadata", metadata)])
             end
         end)
        (fun _ => ret (json 500 [("error", JStr "Failed to download file from the provided URL.")]))
  end.

(** The classification chain in the words of the specification: the
    content type of the response; failing that, the type guessed from the
    extension of the file name; failing both, the generic binary type. *)
Definition spec_url_mimeType (contentType : option string) (filename : string) : string :=
  match header_value contentType with
  | Some t => t
  | None =>
      default "application/octet-stream"
              (Str.table_get mimeTypes (Str.toLowerCase (Path.extname filename)))
  end.

(** What [POST /upload-url] stores and answers for a response that is not
    classified as media. *)
Definition url_stored_name (pathname : string) (r : FetchResponse) : string :=
  sanitizeFilename (url_filename pathname r).

Definition url_size (r : FetchResponse) : JS.num :=
  JS.or_else (JS.parseInt_opt (content_length r)) (JS.Int 0).

Definition url_raw_response (storedName : string) (size : JS.num) (mimeType : string)
    : response :=
  json 200 [("message", JStr "File downloaded successfully via URL.");
            ("watchUrl", JNull);
            ("fileUrl", JStr (origin +:+ "/uploads/" +:+ encodeURIComponent storedName));
            ("metadata", JMetadata storedName size mimeType)].

(** [MAX_UPLOAD_SIZE] as the start-up code computes it from the
    environment variable of that name ([None] when it is not set):
    [process.env.MAX_UPLOAD_SIZE ? parseInt(process.env.MAX_UPLOAD_SIZE, 10)
    : 500 * 1024 * 1024]. *)
Definition max_upload_size_of_env (env : option string) : JS.num :=
  match header_value env with
  | Some v => JS.parseInt v
  | None => JS.Int (500 * 1024 * 1024)
  end.

(** The answer of [POST /upload-url] to anything thrown inside its [try]. *)
Definition download_failed : response :=
  json 500 [("error", JStr "Failed to download file from the provided URL.")].

(** Events added by [POST /upload-url]. *)
Definition upload_url_events (fileUrl : string) (w : World) : list event :=
  drop (length (trace w)) (trace (snd (post_upload_url (Some fileUrl) w))).

(** *** GET /watch/:filename *)

Definition get_watch (filename : string) : M response :=
  let filePath := Path.join uploadDir filename in
  present <- existsSync filePath ;;
  if negb present then ret (send 404 "File not found.") else
  let mimeType := getMimeType filename in
  if negb (Str.includes mediaMimeTypes mimeType) then
    ret (send 400 "File is not a supported media type.")
  else
    size <- statSync_size filePath ;;
    let hlsOutputDir := Path.join uploadDir (Path.parse_name filename) in
    let masterPlaylistPath := Path.join hlsOutputDir "master.m3u8" in
    published <- existsSync masterPlaylistPath ;;
    if negb published then ret (send 404 "Streaming not available for this file.")
    else
      ret {| status := 200; headers := [];
             payload := WatchPage ("/uploads/" +:+ encodeURIComponent filename +:+ "/master.m3u8")
                                  filename size mimeType |}.

(** *** GET /uploads/:filename *)

(** [parts[0]] and [parts[1]] of [range.replace(/bytes=/, "").split("-")]. *)
Definition range_parts (range : string) : list string :=
  Str.split "-" (Str.remove_first "bytes=" range).

Definition range_start (range : string) : JS.num :=
  JS.parseInt_opt (range_parts range !! 0%nat).

Definition range_end (range : string) (fileSize : Z) : JS.num :=
  match header_value (range_parts range !! 1%nat) with
  | Some p => JS.parseInt p
  | None => JS.Int (fileSize - 1)
  end.

Definition get_uploads (filename : string) (range : option string) : M response :=
  let filePath := Path.join uploadDir filename in
  present <- existsSync filePath ;;
  if negb present then ret (send 404 "File not found.") else
  let mimeType := getMimeType filename in
  if negb (Str.includes mediaMimeTypes mimeType) then
    ret (send 400 "File is not a supported media type.")
  else
    fileSize <- statSync_size filePath ;;
    match header_value range with
    | Some range =>
        let start := range_start range in
        let end_ := range_end range fileSize in
        if JS.ge start (JS.Int fileSize) then
          ret (send 416 ("Requested range not satisfiable" +:+ nl
                           +:+ JS.show start +:+ " >= " +:+ JS.show (JS.Int fileSize)))
        else
          let chunksize := JS.add (JS.sub end_ start) (JS.Int 1) in
          file <- createReadStream_range filePath start end_ ;;
          let head :=
            [ ("Content-Range", "bytes " +:+ JS.show start +:+ "-" +:+ JS.show end_
                                  +:+ "/" +:+ JS.show (JS.Int fileSize));
              ("Accept-Ranges", "bytes");
              ("Content-Length", JS.show chunksize);
              ("Content-Type", mimeType) ] in
          ret {| status := 206; headers := head; payload := Piped file |}
    | None =>
        let head :=
          [ ("Content-Length", JS.show (JS.Int fileSize));
            ("Content-Type", mimeType) ] in
        file <- createReadStream filePath ;;
        ret {| status := 200; headers := head; payload := Piped file |}
    end.

(** *** The [/uploads] middleware and the routing behind it *)

Inductive dispatch : Type :=
| RangeRoute    (* [next()]: on to the route handlers *)
| StaticServer. (* [express.static(uploadDir)] *)

(** [reqPath] is [req.path], relative to the mount point [/uploads]. *)
Definition uploads_middleware (reqPath : string) : dispatch :=
  let filename := Path.basename reqPath in
  let mimeType := getMimeType filename in
  if Str.includes mediaMimeTypes mimeType then RangeRoute else StaticServer.

(** The parameter of the route [/uploads/:filename]: the path under the
    mount point must be a single non-empty segment.  Percent-decoding of
    the segment is not modelled. *)
Definition route_filename (reqPath : string) : option string :=
  match reqPath with
  | String "/" seg =>
      if Str.truthy seg && negb (existsb Path.is_slash (Str.chars seg))
      then Some seg else None
  | _ => None
  end.

Inductive served : Type :=
| ByHandler (r : response)
| ByStatic (reqPath : string)
| Unrouted.

(** GET of a path under [/uploads]. *)
Definition app_get_uploads (reqPath : string) (range : option string)
    (w : World) : served * World :=
  match uploads_middleware reqPath with
  | StaticServer => (ByStatic reqPath, w)
  | RangeRoute =>
      match route_filename reqPath with
      | Some filename =>
          let (r, w') := run_route (get_uploads filename range) w in (ByHandler r, w')
      | None => (Unrouted, w)
      end
  end.

(** The answer to a name that does not map to a media type. *)
Definition unsupported : response := send 400 "File is not a supported media type.".

(** *** The job run by an upload request *)

(** Events added by [POST /upload] of [file] in world [w], and the state
    they leave the request's transcode job in. *)
Definition upload_events (file : ReqFile.t) (w : World) : list event :=
  drop (length (trace w)) (trace (snd (post_upload (Some file) w))).

Definition upload_job_state (file : ReqFile.t) (w : World) : JobState :=
  job_state (master_path (ReqFile.filename file)) (upload_events file w).

(** The command of that job. *)
Definition upload_job (file : ReqFile.t) : EncodeJob :=
  hls_command upload_options (ReqFile.path file) (hls_dir (ReqFile.filename file)).

(** The two answers of [POST /upload] for a media file. *)
Definition upload_ok_response (file : ReqFile.t) : response :=
  json 200 [("message", JStr "Media file uploaded and converted to HLS successfully.");
            ("watchUrl", JStr (origin +:+ "/watch/"
                                 +:+ encodeURIComponent (ReqFile.filename file)))].

Definition upload_failed_response : response :=
  json 500 [("error", JStr "Error processing video for streaming.")].

(** ** Properties *)

(** *** The monad and the file system primitives *)

Ltac unfold_m :=
  cbv beta iota zeta delta [bind ret throw try_catch emit get_fs put_fs existsSync mkdirSync
                  writeFile unlink statSync_size createReadStream
                  createReadStream_range run_route].

Ltac red_m := cbv beta iota zeta delta [negb andb]; cbn [fs trace].

Lemma exists_true (f : gmap string node) p n :
  f !! p = Some n -> bool_decide (is_Some (f !! p)) = true.
Proof. intros H. apply bool_decide_eq_true_2. rewrite H. eauto. Qed.

Lemma exists_false (f : gmap string node) p :
  f !! p = None -> bool_decide (is_Some (f !! p)) = false.
Proof. intros H. apply bool_decide_eq_false_2. rewrite H. intros [x Hx]. discriminate. Qed.

(** *** Printing and parsing decimal numbers *)

Lemma digits_uint d acc :
  JS.digits (Some acc) (NilEmpty.string_of_uint d) = Some (uint_value d acc).
Proof.
  revert acc. induction d; intros acc; cbn [NilEmpty.string_of_uint uint_value];
    try reflexivity;
    (cbn [JS.digits]; change (Str.is_digit _) with true; cbv iota;
     rewrite <- IHd; reflexivity).
Qed.

Lemma of_uint_acc_value d p :
  Zpos (Pos.of_uint_acc d p) = uint_value d (Zpos p).
Proof.
  revert p. induction d; intros p; cbn [Pos.of_uint_acc uint_value];
    try reflexivity; rewrite IHd; f_equal; lia.
Qed.

Lemma of_uint_value d : Z.of_N (Pos.of_uint d) = uint_value d 0.
Proof.
  induction d; cbn [Pos.of_uint uint_value]; try reflexivity;
    try (rewrite IHd; reflexivity);
    cbn [Z.of_N]; rewrite of_uint_acc_value; reflexivity.
Qed.

Lemma string_of_uint_no_dash d : no_dash (NilEmpty.string_of_uint d).
Proof.
  unfold no_dash. induction d; cbn; constructor; auto.
Qed.

(** The decimal numeral printed for a non-negative integer. *)
Lemma show_Z_numeral z :
  0 <= z ->
  exists d, d <> Decimal.Nil
            /\ JS.show_Z z = NilEmpty.string_of_uint d
            /\ uint_value d 0 = z.
Proof.
  intros Hz. destruct z as [|p|p]; [| |lia].
  - exists (Decimal.D0 Decimal.Nil). repeat split. discriminate.
  - exists (Pos.to_uint p).
    pose proof (DecimalPos.Unsigned.to_uint_nonnil p) as Hnil.
    split; [exact Hnil|]. split.
    + unfold JS.show_Z. cbn [Z.to_int NilZero.string_of_int].
      unfold NilZero.string_of_uint. destruct (Pos.to_uint p); congruence.
    + rewrite <- of_uint_value, DecimalPos.Unsigned.of_to. reflexivity.
Qed.

Lemma parseInt_numeral d :
  d <> Decimal.Nil ->
  JS.parseInt (NilEmpty.string_of_uint d) = JS.Int (uint_value d 0).
Proof.
  intros Hd. destruct d; [congruence| ..];
    cbn [NilEmpty.string_of_uint uint_value];
    unfold JS.parseInt; cbn [JS.skip_space];
    change (JS.is_space _) with false; cbv iota;
    cbn [JS.digits]; change (Str.is_digit _) with true; cbv iota;
    cbn [default]; rewrite digits_uint; f_equal;
    rewrite Z.mul_1_l; reflexivity.
Qed.

Lemma parseInt_show_Z z : 0 <= z -> JS.parseInt (JS.show_Z z) = JS.Int z.
Proof.
  intros Hz. destruct (show_Z_numeral z Hz) as (d & Hd & -> & <-).
  apply parseInt_numeral, Hd.
Qed.

Lemma show_Z_no_dash z : 0 <= z -> no_dash (JS.show_Z z).
Proof.
  intros Hz. destruct (show_Z_numeral z Hz) as (d & _ & -> & _).
  apply string_of_uint_no_dash.
Qed.

Lemma show_Z_truthy z : 0 <= z -> Str.truthy (JS.show_Z z) = true.
Proof.
  intros Hz. destruct (show_Z_numeral z Hz) as (d & Hd & -> & _).
  destruct d; [congruence| ..]; reflexivity.
Qed.

(** *** Range headers in canonical form *)

Lemma substring_full x : String.substring 0 (String.length x) x = x.
Proof. induction x as [|c r IH]; cbn; [reflexivity | rewrite IH; reflexivity]. Qed.

Lemma remove_first_prefix pat s :
  String.prefix pat s = true ->
  Str.remove_first pat s
  = String.substring (String.length pat) (String.length s - String.length pat) s.
Proof. intros H. destruct s; unfold Str.remove_first; rewrite H; reflexivity. Qed.

Lemma remove_first_bytes x : Str.remove_first "bytes=" ("bytes=" +:+ x) = x.
Proof.
  change ("bytes=" +:+ x)
    with (String "b" (String "y" (String "t" (String "e" (String "s" (String "=" x)))))).
  rewrite remove_first_prefix by (destruct x; reflexivity).
  cbn [String.length Nat.sub String.substring].
  rewrite Nat.sub_0_r. apply substring_full.
Qed.

Lemma split_no_dash s : no_dash s -> Str.split "-" s = [s].
Proof.
  unfold no_dash. induction s as [|c r IH]; intros H; [reflexivity|].
  cbn [Str.split]. change (Str.chars (String c r)) with (c :: Str.chars r) in H.
  inversion H as [|? ? Hc Hr]; subst. rewrite Hc, (IH Hr). reflexivity.
Qed.

Lemma split_at_dash s1 s2 :
  no_dash s1 -> Str.split "-" (s1 +:+ String "-" s2) = s1 :: Str.split "-" s2.
Proof.
  unfold no_dash. induction s1 as [|c r IH]; intros H.
  - reflexivity.
  - change (String c r +:+ String "-" s2) with (String c (r +:+ String "-" s2)).
    cbn [Str.split]. change (Str.chars (String c r)) with (c :: Str.chars r) in H.
    inversion H as [|? ? Hc Hr]; subst. rewrite Hc, (IH Hr). reflexivity.
Qed.

Lemma range_header_parts s e :
  0 <= s -> 0 <= e ->
  range_parts (range_header s e) = [JS.show_Z s; JS.show_Z e].
Proof.
  intros Hs He. unfold range_parts, range_header.
  rewrite remove_first_bytes.
  change ("-" +:+ JS.show_Z e) with (String "-" (JS.show_Z e)).
  rewrite split_at_dash by (apply show_Z_no_dash, Hs).
  rewrite split_no_dash by (apply show_Z_no_dash, He). reflexivity.
Qed.

Lemma open_range_header_parts s :
  0 <= s -> range_parts (open_range_header s) = [JS.show_Z s; ""].
Proof.
  intros Hs. unfold range_parts, open_range_header.
  rewrite remove_first_bytes.
  rewrite split_at_dash by (apply show_Z_no_dash, Hs). reflexivity.
Qed.

(** A header [bytes=s-e] is read back as the window from [s] to [e], and
    [bytes=s-] as the window from [s] to the last byte. *)
Lemma range_header_parses s e fileSize :
  0 <= s -> 0 <= e ->
  Str.truthy (range_header s e) = true
  /\ range_start (range_header s e) = JS.Int s
  /\ range_end (range_header s e) fileSize = JS.Int e.
Proof.
  intros Hs He. split; [reflexivity|].
  unfold range_start, range_end. rewrite (range_header_parts _ _ Hs He).
  cbn [lookup list_lookup JS.parseInt_opt header_value].
  rewrite (show_Z_truthy _ He), !parseInt_show_Z by assumption. split; reflexivity.
Qed.

Lemma open_range_header_parses s fileSize :
  0 <= s ->
  Str.truthy (open_range_header s) = true
  /\ range_start (open_range_header s) = JS.Int s
  /\ range_end (open_range_header s) fileSize = JS.Int (fileSize - 1).
Proof.
  intros Hs. split; [reflexivity|].
  unfold range_start, range_end. rewrite (open_range_header_parts _ Hs).
  cbn [lookup list_lookup JS.parseInt_opt header_value Str.truthy].
  rewrite parseInt_show_Z by assumption. split; reflexivity.
Qed.

(** *** The byte-range handler *)

Lemma get_uploads_unsatisfiable w filename content range :
  stored_media w filename content ->
  Str.truthy range = true ->
  JS.ge (range_start range) (JS.Int (file_size content)) = true ->
  get_uploads filename (Some range) w
  = (Ok (send 416 (body_416 (range_start range) (file_size content))), w).
Proof.
  intros [Hfile Hmedia] Htruthy Hge.
  unfold get_uploads. unfold_m.
  rewrite (exists_true _ _ _ Hfile). red_m.
  rewrite Hmedia. red_m. rewrite Hfile.
  unfold header_value. rewrite Htruthy.
  fold (file_size content). rewrite Hge. reflexivity.
Qed.

Lemma get_uploads_partial w filename content range s e :
  stored_media w filename content ->
  Str.truthy range = true ->
  range_start range = JS.Int s ->
  range_end range (file_size content) = JS.Int e ->
  0 <= s < file_size content ->
  s <= e ->
  get_uploads filename (Some range) w
  = (Ok {| status := 206;
           headers :=
             [ ("Content-Range", "bytes " +:+ JS.show_Z s +:+ "-" +:+ JS.show_Z e
                                   +:+ "/" +:+ JS.show_Z (file_size content));
               ("Accept-Ranges", "bytes");
               ("Content-Length", JS.show_Z (e - s + 1));
               ("Content-Type", getMimeType filename) ];
           payload := Piped (Some (window content s e)) |},
     opened w (Path.join uploadDir filename)).
Proof.
  intros [Hfile Hmedia] Htruthy Hs He Hrange Hle.
  unfold get_uploads. unfold_m.
  rewrite (exists_true _ _ _ Hfile). red_m.
  rewrite Hmedia. red_m. rewrite Hfile.
  unfold header_value. rewrite Htruthy.
  fold (file_size content). rewrite Hs, He.
  cbv beta iota delta [JS.ge JS.add JS.sub JS.show].
  replace (file_size content <=? s) with false by (symmetry; apply Z.leb_gt; lia).
  replace (0 <=? s) with true by (symmetry; apply Z.leb_le; lia).
  replace (0 <=? e) with true by (symmetry; apply Z.leb_le; lia).
  replace (s <=? e) with true by (symmetry; apply Z.leb_le; lia).
  red_m. rewrite Hfile. reflexivity.
Qed.



Lemma window_length content s e :
  0 <= s -> s <= e -> e < file_size content ->
  length (window content s e) = Z.to_nat (e - s + 1).
Proof.
  intros Hs Hle He. unfold window. unfold file_size in He.
  rewrite length_take, length_drop. lia.
Qed.

Lemma window_lookup content s e (i : nat) :
  0 <= s -> (Z.of_nat i < e - s + 1) ->
  window content s e !! i = content !! (Z.to_nat s + i)%nat.
Proof.
  intros Hs Hi. unfold window.
  rewrite lookup_take_lt by lia. apply lookup_drop.
Qed.

(** C3: a range whose start is at or beyond the file size is answered 416
    with a body naming the start and the file size, and the handler
    returns in the world it was called in: no read stream is opened.  This
    holds for every header whose start is read as [s], in particular for
    [bytes=s-e] and [bytes=s-].  The start is named by its decimal digits
    when it is a safe integer; a larger start is named by the text of the
    double it was rounded to. *)
Theorem start_beyond_file_is_416 w filename content s :
  stored_media w filename content ->
  file_size content <= s ->
  let rejects range :=
    exists shown,
      get_uploads filename (Some range) w
      = (Ok {| status := 416; headers := [];
               payload := Text ("Requested range not satisfiable" +:+ nl
                                  +:+ shown +:+ " >= "
                                  +:+ JS.show_Z (file_size content)) |}, w)
      /\ (s <= JS.max_safe_integer -> shown = JS.show_Z s) in
  (forall range,
     Str.truthy range = true ->
     range_start range = JS.Int s ->
     rejects range
     /\ Forall (fun ev => is_open_read ev = false)
               (drop (length (trace w))
                     (trace (snd (get_uploads filename (Some range) w)))))
  /\ (forall e, 0 <= e -> rejects (range_header s e))
  /\ rejects (open_range_header s).
Proof.
  intros Hst Hge. cbv zeta.
  assert (Hs0 : 0 <= s) by (unfold file_size in Hge; lia).
  assert (Hgen : forall range,
             Str.truthy range = true ->
             range_start range = JS.Int s ->
             get_uploads filename (Some range) w
             = (Ok (send 416 (body_416 (JS.Int s) (file_size content))), w)).
  { intros range Ht Hs.
    rewrite (get_uploads_unsatisfiable _ _ _ _ Hst Ht), Hs; [reflexivity|].
    rewrite Hs. apply Z.leb_le. exact Hge. }
  split; [|split].
  - intros range Ht Hs. split.
    + exists (JS.show_Z s). split; [apply Hgen; assumption | reflexivity].
    + rewrite (Hgen range Ht Hs). cbn [snd]. rewrite drop_all. constructor.
  - intros e He.
    destruct (range_header_parses s e (file_size content) Hs0 He) as (Ht & Hs & _).
    exists (JS.show_Z s). split; [apply Hgen; assumption | reflexivity].
  - destruct (open_range_header_parses s (file_size content) Hs0) as (Ht & Hs & _).
    exists (JS.show_Z s). split; [apply Hgen; assumption | reflexivity].
Qed.

(** C4: a valid range [0 <= start <= end < fileSize] is answered 206 with
    the four headers, and the body is the window of the stored file from
    [start] to [end], of length [end - start + 1].  This holds for every
    header that is read as that window, in particular for [bytes=start-end],
    and for [bytes=start-], whose end is taken to be [fileSize - 1]. *)
Theorem valid_range_is_served w filename content s e :
  stored_media w filename content ->
  0 <= s -> s <= e -> e < file_size content ->
  let partial :=
    (Ok {| status := 206;
           headers :=
             [ ("Content-Range", "bytes " +:+ JS.show_Z s +:+ "-" +:+ JS.show_Z e
                                   +:+ "/" +:+ JS.show_Z (file_size content));
               ("Accept-Ranges", "bytes");
               ("Content-Length", JS.show_Z (e - s + 1));
               ("Content-Type", getMimeType filename) ];
           payload := Piped (Some (window content s e)) |},
     opened w (Path.join uploadDir filename)) in
  (forall range,
     Str.truthy range = true ->
     range_start range = JS.Int s ->
     range_end range (file_size content) = JS.Int e ->
     get_uploads filename (Some range) w = partial)
  /\ get_uploads filename (Some (range_header s e)) w = partial
  /\ (e = file_size content - 1 ->
      get_uploads filename (Some (open_range_header s)) w = partial)
  /\ length (window content s e) = Z.to_nat (e - s + 1)
  /\ (forall i : nat, Z.of_nat i < e - s + 1 ->
        window content s e !! i = content !! (Z.to_nat s + i)%nat).
Proof.
  intros Hst H0 Hle Hlt. cbv zeta.
  assert (Hgen : forall range,
             Str.truthy range = true ->
             range_start range = JS.Int s ->
             range_end range (file_size content) = JS.Int e ->
             get_uploads filename (Some range) w = _)
    by (intros range Ht Hs He;
        apply get_uploads_partial; [exact Hst | exact Ht | exact Hs | exact He | lia | lia]).
  split; [exact Hgen|]. split; [|split; [|split]].
  - destruct (range_header_parses s e (file_size content)) as (Ht & Hs & He); [lia..|].
    apply Hgen; assumption.
  - intros ->.
    destruct (open_range_header_parses s (file_size content)) as (Ht & Hs & He); [lia|].
    apply Hgen; assumption.
  - apply window_length; lia.
  - intros i Hi. apply window_lookup; lia.
Qed.



(** *** The HLS packaging step *)

Lemma masterPlaylist_lines : masterPlaylist = unlines manifest_lines.
Proof. reflexivity. Qed.

Lemma append_proper a c b : a <> a +:+ String c b.
Proof.
  induction a as [|x a IH]; cbn; [discriminate|].
  intros H. injection H as H. exact (IH H).
Qed.

Lemma master_path_not_dir storedName : hls_dir storedName <> master_path storedName.
Proof. unfold master_path, Path.join. apply append_proper. Qed.

(** What the conversion block does, by the outcome of the engine. *)
Lemma convert_to_hls_run options input storedName w :
  let job := hls_command options input (hls_dir storedName) in
  let master := master_path storedName in
  let pre := ensure_dir_events storedName (fs w) in
  convert_to_hls options input storedName w
  = match engine job (ensure_dir storedName (fs w)) with
    | (None, f') =>
        (Ok tt,
         {| fs := <[master := File (bytes_of masterPlaylist)]> f';
            trace := trace w ++ pre ++ [EvEncodeStart job; EvEncodeEnd job true;
                                         EvWriteFile master] |})
    | (Some msg, f') =>
        (Throw (Error msg),
         {| fs := f';
            trace := trace w ++ pre ++ [EvEncodeStart job; EvEncodeEnd job false] |})
    end.
Proof.
  cbv zeta. unfold convert_to_hls, run_ffmpeg, ensure_dir, ensure_dir_events.
  fold (hls_dir storedName). fold (master_path storedName).
  unfold_m.
  destruct (bool_decide (is_Some (fs w !! hls_dir storedName))); red_m.
  - destruct (engine _ (fs w)) as [[msg|] f']; red_m;
      rewrite <- ?app_assoc; reflexivity.
  - destruct (engine _ _) as [[msg|] f']; red_m;
      rewrite <- ?app_assoc; reflexivity.
Qed.


(** *** POST /upload of a media file *)

Lemma post_upload_media file w :
  Str.includes mediaMimeTypes (ReqFile.mimetype file) = true ->
  let storedName := ReqFile.filename file in
  let job := upload_job file in
  let master := master_path storedName in
  let pre := ensure_dir_events storedName (fs w) in
  post_upload (Some file) w
  = match engine job (ensure_dir storedName (fs w)) with
    | (None, f') =>
        (Ok (upload_ok_response file),
         {| fs := <[master := File (bytes_of masterPlaylist)]> f';
            trace := trace w ++ pre ++ [EvEncodeStart job; EvEncodeEnd job true;
                                         EvWriteFile master] |})
    | (Some msg, f') =>
        (Ok upload_failed_response,
         {| fs := f';
            trace := trace w ++ pre ++ [EvEncodeStart job; EvEncodeEnd job false] |})
    end.
Proof.
  intros Hmedia. cbv zeta. unfold post_upload. rewrite Hmedia.
  unfold try_catch, bind at 1.
  rewrite convert_to_hls_run. fold (upload_job file).
  destruct (engine _ _) as [[msg|] f']; reflexivity.
Qed.

Lemma upload_events_media file w :
  Str.includes mediaMimeTypes (ReqFile.mimetype file) = true ->
  let job := upload_job file in
  upload_events file w
  = (ensure_dir_events (ReqFile.filename file) (fs w)
     ++ match fst (engine job (ensure_dir (ReqFile.filename file) (fs w))) with
        | None => [EvEncodeStart job; EvEncodeEnd job true;
                    EvWriteFile (master_path (ReqFile.filename file))]
        | Some _ => [EvEncodeStart job; EvEncodeEnd job false]
        end)%list.
Proof.
  intros Hmedia. cbv zeta. unfold upload_events.
  rewrite (post_upload_media _ _ Hmedia).
  destruct (engine _ _) as [[msg|] f']; cbn [snd fst trace];
    rewrite drop_app_length; reflexivity.
Qed.

Lemma job_state_after_ensure_dir master storedName f evs :
  job_state master (ensure_dir_events storedName f ++ evs)%list = job_state master evs.
Proof.
  unfold ensure_dir_events. destruct (bool_decide _); reflexivity.
Qed.

Lemma upload_job_state_media file w :
  Str.includes mediaMimeTypes (ReqFile.mimetype file) = true ->
  upload_job_state file w
  = match fst (engine (upload_job file) (ensure_dir (ReqFile.filename file) (fs w))) with
    | None => Published
    | Some _ => Failed
    end.
Proof.
  intros Hmedia. unfold upload_job_state.
  rewrite (upload_events_media _ _ Hmedia), job_state_after_ensure_dir.
  destruct (fst _); [reflexivity|].
  unfold job_state. cbn. rewrite String.eqb_refl. reflexivity.
Qed.

Lemma ensure_dir_master storedName (f : gmap string node) :
  ensure_dir storedName f !! master_path storedName = f !! master_path storedName.
Proof.
  unfold ensure_dir. destruct (bool_decide _); [reflexivity|].
  apply lookup_insert_ne, master_path_not_dir.
Qed.


(** The manifest write, when there is one, comes after the engine has
    ended normally. *)
Lemma write_follows_encode file w before after :
  Str.includes mediaMimeTypes (ReqFile.mimetype file) = true ->
  upload_events file w
    = (before ++ EvWriteFile (master_path (ReqFile.filename file)) :: after)%list ->
  In (EvEncodeEnd (upload_job file) true) before.
Proof.
  intros Hmedia. rewrite (upload_events_media _ _ Hmedia).
  unfold ensure_dir_events.
  destruct (bool_decide _), (fst _); cbn; intros H;
    repeat (destruct before as [|? before]; simplify_eq/=; auto).
Qed.

Lemma no_write_on_failure file w msg :
  Str.includes mediaMimeTypes (ReqFile.mimetype file) = true ->
  fst (engine (upload_job file) (ensure_dir (ReqFile.filename file) (fs w))) = Some msg ->
  ~ In (EvWriteFile (master_path (ReqFile.filename file))) (upload_events file w).
Proof.
  intros Hmedia Hfail. rewrite (upload_events_media _ _ Hmedia), Hfail.
  unfold ensure_dir_events.
  destruct (bool_decide _); cbn; intros H;
    repeat (destruct H as [H|H]; [discriminate H|]); exact H.
Qed.

(** C2, as the handler implements it: the master manifest is written only
    after the engine has ended normally.  When it has, and the output
    directory is in place, the job is Published, the manifest is on disk
    with the configured renditions and the answer is 200.  When the engine
    fails the job is Failed, the request writes no manifest, leaves what
    was at the manifest path as it was, and the answer is 500.  For a job
    that starts without a manifest, the manifest is on disk after the
    request exactly when the job is Published. *)
Theorem manifest_written_only_after_engine_success file w :
  Str.includes mediaMimeTypes (ReqFile.mimetype file) = true ->
  engine_preserves engine (upload_job file) (master_path (ReqFile.filename file)) ->
  let master := master_path (ReqFile.filename file) in
  let ran := engine (upload_job file) (ensure_dir (ReqFile.filename file) (fs w)) in
  let '(r, w') := post_upload (Some file) w in
  (forall before after,
      upload_events file w = (before ++ EvWriteFile master :: after)%list ->
      In (EvEncodeEnd (upload_job file) true) before)
  /\ (fst ran = None ->
      output_ready (snd ran) (ReqFile.filename file) ->
      upload_job_state file w = Published
      /\ In (EvWriteFile master) (upload_events file w)
      /\ fs w' !! master = Some (File (bytes_of masterPlaylist))
      /\ r = Ok (upload_ok_response file)
      /\ status (upload_ok_response file) = 200)
  /\ (forall msg,
        fst ran = Some msg ->
        upload_job_state file w = Failed
        /\ ~ In (EvWriteFile master) (upload_events file w)
        /\ fs w' !! master = fs w !! master
        /\ r = Ok upload_failed_response
        /\ status upload_failed_response = 500)
  /\ (fs w !! master = None ->
      (is_Some (fs w' !! master) <-> upload_job_state file w = Published)).
Proof.
  intros Hmedia Hkeep. cbv zeta.
  pose proof (upload_job_state_media _ w Hmedia) as Hstate.
  pose proof (upload_events_media _ w Hmedia) as Hevents. cbv zeta in Hevents.
  pose proof (post_upload_media _ w Hmedia) as Hrun. cbv zeta in Hrun.
  pose proof (Hkeep (ensure_dir (ReqFile.filename file) (fs w))) as Hk.
  rewrite ensure_dir_master in Hk.
  destruct (post_upload (Some file) w) as [r w'].
  destruct (engine (upload_job file) (ensure_dir (ReqFile.filename file) (fs w)))
    as [[msg|] f'] eqn:Heng; cbn [fst snd] in Hstate, Hevents, Hk |- *;
    inversion Hrun; subst r w'; cbn [fs].
  - split; [|split; [|split]].
    + intros before after. apply write_follows_encode, Hmedia.
    + intros Hnone. discriminate Hnone.
    + intros msg' Hmsg. repeat split; auto.
      apply (no_write_on_failure _ _ msg); auto. rewrite Heng. reflexivity.
    + intros Habsent. rewrite Hstate, Hk, Habsent.
      split; [intros [x Hx]; discriminate | discriminate].
  - split; [|split; [|split]].
    + intros before after. apply write_follows_encode, Hmedia.
    + intros _ _. repeat split; auto.
      * rewrite Hevents. apply in_or_app. right. cbn [In]. auto.
      * apply lookup_insert_eq.
    + intros msg' Hmsg. discriminate Hmsg.
    + intros _. rewrite Hstate, lookup_insert_eq. split; eauto.
Qed.

Lemma upload_encode_count file w :
  Str.includes mediaMimeTypes (ReqFile.mimetype file) = true ->
  encode_count (upload_events file w) = 1%nat.
Proof.
  intros Hmedia. rewrite (upload_events_media _ _ Hmedia).
  unfold ensure_dir_events, encode_count.
  destruct (bool_decide _), (fst _); reflexivity.
Qed.

(** C5, as the handler implements it: every upload of a media file invokes
    the encoding engine exactly once, whatever the file system already
    holds for the asset and whatever state an earlier job left it in. *)
Theorem media_upload_encodes_once file w :
  Str.includes mediaMimeTypes (ReqFile.mimetype file) = true ->
  encode_count (upload_events file w) = 1%nat
  /\ In (EvEncodeStart (upload_job file)) (upload_events file w).
Proof.
  intros Hmedia. split; [apply upload_encode_count, Hmedia|].
  rewrite (upload_events_media _ _ Hmedia).
  unfold ensure_dir_events.
  destruct (bool_decide _), (fst _); cbn; auto.
Qed.

(** C7: the master manifest of a Published job holds one entry for each of
    the three configured renditions, with its bitrate in bits per second as
    BANDWIDTH, its size as RESOLUTION and its playlist file, which is the
    playlist the engine was asked to produce. *)
Theorem published_manifest_lists_renditions file w :
  Str.includes mediaMimeTypes (ReqFile.mimetype file) = true ->
  upload_job_state file w = Published ->
  let dir := hls_dir (ReqFile.filename file) in
  fs (snd (post_upload (Some file) w)) !! master_path (ReqFile.filename file)
  = Some (File (bytes_of (unlines manifest_lines)))
  /\ map (fun l => (Level.name l, Level.size l,
                    JS.mul (JS.parseInt (Level.bitrate l)) (JS.Int 1000))) qualityLevels
     = [ ("720p", "1280x720", JS.Int 2800000);
         ("480p", "854x480", JS.Int 1400000);
         ("360p", "640x360", JS.Int 800000) ]
  /\ map out_playlist (job_outputs (upload_job file))
     = [ Path.join dir "720p.m3u8"; Path.join dir "480p.m3u8"; Path.join dir "360p.m3u8" ].
Proof.
  intros Hmedia Hpub. cbv zeta.
  rewrite (upload_job_state_media _ _ Hmedia) in Hpub.
  rewrite (post_upload_media _ _ Hmedia).
  destruct (engine _ _) as [[msg|] f']; cbn [fst] in Hpub; [discriminate|].
  cbn [snd fs]. rewrite lookup_insert_eq, masterPlaylist_lines.
  repeat split.
Qed.


(** *** File names and stored assets *)

Lemma sanitize_char_safe c : safe_char (sanitize_char c) = true.
Proof. unfold sanitize_char. destruct (safe_char c) eqn:H; [exact H | reflexivity]. Qed.

Lemma sanitizeFilename_chars filename :
  Str.chars (sanitizeFilename filename) = map sanitize_char (Str.chars filename).
Proof.
  induction filename as [|c r IH]; [reflexivity|].
  cbn. f_equal. exact IH.
Qed.

Lemma sanitizeFilename_safe filename :
  Forall (fun c => safe_char c = true) (Str.chars (sanitizeFilename filename)).
Proof.
  rewrite sanitizeFilename_chars.
  induction (Str.chars filename) as [|c r IH]; constructor; auto using sanitize_char_safe.
Qed.

(** Multer stores an accepted part under its sanitized name, replacing
    whatever that path held. *)
Lemma multer_single_accepted p w :
  accepted p ->
  let dest := Path.join uploadDir (sanitizeFilename (part_originalname p)) in
  multer_single (Some p) w
  = (Ok (Some {| ReqFile.originalname := part_originalname p;
                 ReqFile.mimetype := part_mimetype p;
                 ReqFile.filename := sanitizeFilename (part_originalname p);
                 ReqFile.path := dest;
                 ReqFile.size := Z.of_nat (length (part_content p)) |}),
     {| fs := <[dest := File (part_content p)]> (fs w);
        trace := trace w ++ [EvWriteFile dest] |}).
Proof.
  intros [Hmime Hsize]. cbv zeta. unfold multer_single. rewrite Hmime.
  replace (MAX_UPLOAD_SIZE <=? _) with false by (symmetry; apply Z.leb_gt; exact Hsize).
  reflexivity.
Qed.

(** C6, as the storage is configured: the stored name is the original with
    every character outside the allow-list replaced by an underscore, so it
    holds allowed characters only; two accepted uploads whose sanitized
    names collide are stored under one and the same path (the name must
    be a file name and the path no directory, for the write to succeed),
    and after the second upload that path holds the bytes of the second. *)
Theorem colliding_names_share_one_path p1 p2 w :
  accepted p1 -> accepted p2 ->
  sanitizeFilename (part_originalname p1) = sanitizeFilename (part_originalname p2) ->
  storable (fs w) (sanitizeFilename (part_originalname p2)) ->
  let dest := Path.join uploadDir (sanitizeFilename (part_originalname p2)) in
  let '(r1, w1) := multer_single (Some p1) w in
  let '(r2, w2) := multer_single (Some p2) w1 in
  (Str.chars (sanitizeFilename (part_originalname p1))
   = map (fun c => if safe_char c then c else "_"%char) (Str.chars (part_originalname p1))
   /\ Forall (fun c => safe_char c = true)
             (Str.chars (sanitizeFilename (part_originalname p1))))
  /\ (exists f1 f2,
        r1 = Ok (Some f1) /\ r2 = Ok (Some f2)
        /\ ReqFile.filename f1 = ReqFile.filename f2
        /\ ReqFile.path f1 = dest /\ ReqFile.path f2 = dest)
  /\ fs w1 !! dest = Some (File (part_content p1))
  /\ fs w2 !! dest = Some (File (part_content p2))
  /\ fs w2 = <[dest := File (part_content p2)]> (fs w).
Proof.
  intros H1 H2 Hsame _. cbv zeta.
  rewrite (multer_single_accepted _ w H1), (multer_single_accepted _ _ H2).
  rewrite Hsame. cbn [fs].
  split; [split|split; [|split; [|split]]].
  - rewrite <- Hsame. apply sanitizeFilename_chars.
  - rewrite <- Hsame. apply sanitizeFilename_safe.
  - eexists _, _. repeat split; cbn; congruence.
  - apply lookup_insert_eq.
  - apply lookup_insert_eq.
  - apply insert_insert_eq.
Qed.


(** In the second variant two uploads stored under different tokens of
    the same length never share a name, whatever their original names. *)
Lemma append_same_length a b x y :
  String.length a = String.length b -> a +:+ x = b +:+ y -> a = b.
Proof.
  revert b. induction a as [|c a IH]; intros [|d b] Hlen H; try discriminate.
  - reflexivity.
  - injection Hlen as Hlen. injection H as -> H. f_equal. exact (IH b Hlen H).
Qed.

Lemma legacy_names_distinct t1 t2 n1 n2 :
  String.length t1 = String.length t2 -> t1 <> t2 ->
  Legacy.stored_name t1 n1 <> Legacy.stored_name t2 n2.
Proof.
  intros Hlen Hne H. apply Hne.
  exact (append_same_length _ _ _ _ Hlen H).
Qed.

(** *** POST /upload-url *)

Lemma post_upload_url_raw fileUrl resp pathname w :
  Str.truthy fileUrl = true ->
  fetch fileUrl = Some resp ->
  url_pathname fileUrl = Some pathname ->
  Str.includes mediaMimeTypes (url_mimeType resp) = false ->
  let storedName := url_stored_name pathname resp in
  let filePath := Path.join uploadDir storedName in
  post_upload_url (Some fileUrl) w
  = (Ok (url_raw_response storedName (url_size resp) (url_mimeType resp)),
     {| fs := <[filePath := File (data resp)]> (fs w);
        trace := trace w ++ [EvFetch fileUrl; EvWriteFile filePath] |}).
Proof.
  intros Htruthy Hfetch Hpath Hraw. cbv zeta.
  unfold post_upload_url, header_value. rewrite Htruthy.
  unfold try_catch, bind at 1, emit at 1. rewrite Hfetch, Hpath.
  fold (url_stored_name pathname resp). rewrite Hraw.
  unfold_m. red_m. rewrite <- app_assoc. reflexivity.
Qed.

Lemma post_upload_url_media_events fileUrl resp pathname w :
  Str.truthy fileUrl = true ->
  fetch fileUrl = Some resp ->
  url_pathname fileUrl = Some pathname ->
  Str.includes mediaMimeTypes (url_mimeType resp) = true ->
  encode_count (upload_url_events fileUrl w) = 1%nat.
Proof.
  intros Htruthy Hfetch Hpath Hmedia.
  unfold upload_url_events, post_upload_url, header_value. rewrite Htruthy.
  unfold try_catch, bind at 1, emit at 1. rewrite Hfetch, Hpath, Hmedia.
  unfold_m. red_m.
  rewrite convert_to_hls_run. cbn [fs trace].
  unfold ensure_dir_events.
  destruct (engine _ _) as [[msg|] f']; cbn [snd trace];
    rewrite <- !app_assoc, drop_app_length;
    destruct (bool_decide _); reflexivity.
Qed.

(** C8, as the handler implements it: for a download that is fetched and
    stored, the type is the content-type header of the response when it
    has one and [application/octet-stream] otherwise, whatever the
    extension of the file name; the asset is handled as media exactly when
    that type is a media type. *)
Theorem url_type_is_header_or_default fileUrl resp pathname w :
  Str.truthy fileUrl = true ->
  fetch fileUrl = Some resp ->
  url_pathname fileUrl = Some pathname ->
  storable (fs w) (url_stored_name pathname resp) ->
  JS.safe (JS.parseInt_opt (content_length resp)) ->
  let storedName := url_stored_name pathname resp in
  let filePath := Path.join uploadDir storedName in
  let stored := {| fs := <[filePath := File (data resp)]> (fs w);
                   trace := trace w ++ [EvFetch fileUrl; EvWriteFile filePath] |} in
  (header_value (content_type resp) = None ->
     post_upload_url (Some fileUrl) w
     = (Ok (url_raw_response storedName (url_size resp) "application/octet-stream"),
        stored))
  /\ (forall t, header_value (content_type resp) = Some t ->
        Str.includes mediaMimeTypes t = false ->
        type_like t \/ Path.basename pathname <> "" ->
        post_upload_url (Some fileUrl) w
        = (Ok (url_raw_response storedName (url_size resp) t), stored))
  /\ (forall t, header_value (content_type resp) = Some t ->
        Str.includes mediaMimeTypes t = true ->
        encode_count (upload_url_events fileUrl w) = 1%nat).
Proof.
  intros Htruthy Hfetch Hpath _ _. cbv zeta.
  split; [|split].
  - intros Hnone.
    assert (Hm : url_mimeType resp = "application/octet-stream")
      by (unfold url_mimeType; rewrite Hnone; reflexivity).
    rewrite <- Hm. apply post_upload_url_raw; auto. rewrite Hm. reflexivity.
  - intros t Ht Hraw _.
    assert (Hm : url_mimeType resp = t)
      by (unfold url_mimeType; rewrite Ht; reflexivity).
    rewrite <- Hm. apply post_upload_url_raw; auto. rewrite Hm. exact Hraw.
  - intros t Ht Hmedia.
    apply (post_upload_url_media_events _ resp pathname); auto.
    unfold url_mimeType. rewrite Ht. exact Hmedia.
Qed.


(** *** Extensions of file names *)

Lemma chars_app a b : Str.chars (a +:+ b) = (Str.chars a ++ Str.chars b)%list.
Proof.
  unfold Str.chars. induction a as [|c r IH]; [reflexivity|].
  change (String c r +:+ b) with (String c (r +:+ b)).
  cbn [list_ascii_of_string app]. rewrite IH. reflexivity.
Qed.

Lemma of_chars_chars s : Str.of_chars (Str.chars s) = s.
Proof. apply string_of_list_ascii_of_string. Qed.

Lemma drop_while_plain x l : plain x -> Path.drop_while Path.is_slash (x :: l) = x :: l.
Proof. intros [_ H]. cbn. rewrite H. reflexivity. Qed.

Lemma take_until_plain l rest :
  Forall plain l ->
  Path.take_until Path.is_slash (l ++ rest) = (l ++ Path.take_until Path.is_slash rest)%list.
Proof.
  induction 1 as [|x l [_ Hx] _ IH]; [reflexivity|].
  cbn. rewrite Hx, IH. reflexivity.
Qed.

Lemma split_dot_plain l rest :
  Forall plain l -> Path.split_dot (l ++ "."%char :: rest) = Some (l, rest).
Proof.
  induction 1 as [|x l [Hx _] _ IH]; [reflexivity|].
  cbn. rewrite Hx, IH. reflexivity.
Qed.

(** A name [stem ++ c ++ "." ++ e], where [c] is not a slash and [e] is a
    non-empty run of plain characters, has extension ["." ++ e]. *)
Lemma extname_suffix stem c e :
  Path.is_slash c = false ->
  Forall plain (Str.chars e) ->
  e <> "" ->
  Path.extname (stem +:+ String c ("." +:+ e)) = "." +:+ e.
Proof.
  intros Hc He Hne.
  unfold Path.extname, Path.component_rev.
  rewrite chars_app.
  change (Str.chars (String c ("." +:+ e))) with (c :: "."%char :: Str.chars e).
  rewrite rev_app_distr. cbn [rev]. rewrite <- !app_assoc. cbn [app].
  assert (Hrev : Forall plain (rev (Str.chars e))) by (apply Forall_rev; exact He).
  destruct (rev (Str.chars e)) as [|x re] eqn:Hre.
  { apply (f_equal (@rev ascii)) in Hre. rewrite rev_involutive in Hre.
    destruct e; [congruence | discriminate]. }
  inversion Hrev as [|? ? Hx Hre']; subst.
  change ((x :: re) ++ "."%char :: c :: rev (Str.chars stem))%list
    with (x :: (re ++ "."%char :: c :: rev (Str.chars stem)))%list.
  rewrite (drop_while_plain _ _ Hx).
  change (x :: (re ++ "."%char :: c :: rev (Str.chars stem)))%list
    with ((x :: re) ++ "."%char :: c :: rev (Str.chars stem))%list.
  rewrite (take_until_plain _ _ Hrev).
  cbn [Path.take_until]. change (Path.is_slash ".") with false. cbv iota. rewrite Hc.
  unfold Path.ext_rev. rewrite (split_dot_plain _ _ Hrev).
  cbv beta iota. rewrite rev_app_distr, <- Hre, rev_involutive. cbn [rev app].
  change (Str.of_chars ("."%char :: Str.chars e)) with (String "." (Str.of_chars (Str.chars e))).
  rewrite of_chars_chars. reflexivity.
Qed.

(** Names ending in the four extensions the claims are about. *)
Lemma extension_of_names stem c :
  Path.is_slash c = false ->
  Str.toLowerCase (Path.extname (stem +:+ String c ".mkv")) = ".mkv"
  /\ Str.toLowerCase (Path.extname (stem +:+ String c ".avi")) = ".avi"
  /\ Str.toLowerCase (Path.extname (stem +:+ String c ".m3u8")) = ".m3u8"
  /\ Str.toLowerCase (Path.extname (stem +:+ String c ".ts")) = ".ts".
Proof.
  intros Hc.
  assert (H : forall e, Forall plain (Str.chars e) -> e <> "" ->
                        Path.extname (stem +:+ String c (String "." e)) = String "." e)
    by (intros e He Hne; apply (extname_suffix stem c e Hc He Hne)).
  repeat split; rewrite H; try reflexivity; try discriminate;
    repeat constructor.
Qed.

(** *** Names that do not map to a media type *)

Lemma get_uploads_unsupported filename range w :
  is_Some (fs w !! Path.join uploadDir filename) ->
  Str.includes mediaMimeTypes (getMimeType filename) = false ->
  get_uploads filename range w = (Ok unsupported, w).
Proof.
  intros [n Hn] Hraw. unfold get_uploads. unfold_m.
  rewrite (exists_true _ _ _ Hn). red_m. rewrite Hraw. reflexivity.
Qed.

Lemma get_watch_unsupported filename w :
  is_Some (fs w !! Path.join uploadDir filename) ->
  Str.includes mediaMimeTypes (getMimeType filename) = false ->
  get_watch filename w = (Ok unsupported, w).
Proof.
  intros [n Hn] Hraw. unfold get_watch. unfold_m.
  rewrite (exists_true _ _ _ Hn). red_m. rewrite Hraw. reflexivity.
Qed.

Lemma getMimeType_of_ext filename ext :
  Str.toLowerCase (Path.extname filename) = ext ->
  getMimeType filename = default "application/octet-stream" (Str.table_get mimeTypes ext).
Proof. intros <-. reflexivity. Qed.

(** C10: a name with extension [.mkv] or [.avi] maps to [video/x-matroska]
    or [video/x-msvideo], which are not media types, although [video/mkv]
    and [video/avi] are; so an upload declared with one of those two is
    converted as media, and whenever its file is stored both the watch page
    and the range handler answer 400. *)
Theorem mkv_and_avi_are_rejected file w :
  let filename := ReqFile.filename file in
  let ext := Str.toLowerCase (Path.extname filename) in
  ext = ".mkv" \/ ext = ".avi" ->
  ReqFile.mimetype file = "video/mkv" \/ ReqFile.mimetype file = "video/avi" ->
  (ext = ".mkv" -> getMimeType filename = "video/x-matroska")
  /\ (ext = ".avi" -> getMimeType filename = "video/x-msvideo")
  /\ Str.includes mediaMimeTypes "video/x-matroska" = false
  /\ Str.includes mediaMimeTypes "video/x-msvideo" = false
  /\ Str.includes mediaMimeTypes (ReqFile.mimetype file) = true
  /\ encode_count (upload_events file w) = 1%nat
  /\ (forall w', is_Some (fs w' !! Path.join uploadDir filename) ->
        get_watch filename w' = (Ok unsupported, w')
        /\ forall range, get_uploads filename range w' = (Ok unsupported, w')).
Proof.
  cbv zeta. intros Hext Hdecl.
  assert (Hmedia : Str.includes mediaMimeTypes (ReqFile.mimetype file) = true)
    by (destruct Hdecl as [-> | ->]; reflexivity).
  assert (Hraw : Str.includes mediaMimeTypes (getMimeType (ReqFile.filename file)) = false)
    by (destruct Hext as [H | H]; rewrite (getMimeType_of_ext _ _ H); reflexivity).
  split; [intros H; rewrite (getMimeType_of_ext _ _ H); reflexivity|].
  split; [intros H; rewrite (getMimeType_of_ext _ _ H); reflexivity|].
  split; [reflexivity|]. split; [reflexivity|]. split; [exact Hmedia|].
  split; [apply upload_encode_count; exact Hmedia|].
  intros w' Hstored. split.
  - apply get_watch_unsupported; assumption.
  - intros range. apply get_uploads_unsupported; assumption.
Qed.

(** *** Manifests and segments *)

(** C9, as the middleware dispatches: a request whose file name has
    extension [.m3u8] or [.ts] is handed to the static file server and does
    not reach the range handler, which would answer 400 for such a name. *)
Theorem manifests_and_segments_are_served_statically reqPath range w :
  let filename := Path.basename reqPath in
  let ext := Str.toLowerCase (Path.extname filename) in
  ext = ".m3u8" \/ ext = ".ts" ->
  uploads_middleware reqPath = StaticServer
  /\ app_get_uploads reqPath range w = (ByStatic reqPath, w)
  /\ (forall name w',
        Str.toLowerCase (Path.extname name) = ext ->
        is_Some (fs w' !! Path.join uploadDir name) ->
        get_uploads name range w' = (Ok unsupported, w')).
Proof.
  cbv zeta. intros Hext.
  assert (Hraw : forall name,
             Str.toLowerCase (Path.extname name)
             = Str.toLowerCase (Path.extname (Path.basename reqPath)) ->
             Str.includes mediaMimeTypes (getMimeType name) = false).
  { intros name Hname. rewrite (getMimeType_of_ext _ _ Hname).
    destruct Hext as [-> | ->]; reflexivity. }
  assert (Hmw : uploads_middleware reqPath = StaticServer)
    by (unfold uploads_middleware; rewrite (Hraw _ eq_refl); reflexivity).
  split; [exact Hmw|]. split.
  - unfold app_get_uploads. rewrite Hmw. reflexivity.
  - intros name w' Hname Hstored. apply get_uploads_unsupported; auto.
Qed.


(** ** Further properties of the server *)

(** *** The MIME tables *)

Ltac table_cases k :=
  repeat match goal with
         | |- context [String.eqb k ?b] =>
             destruct (String.eqb_spec k b); [subst k|]; cbn
         end.

Lemma media_type_iff_ext ext :
  Str.includes mediaMimeTypes
    (default "application/octet-stream" (Str.table_get mimeTypes ext)) = true
  <-> ext = ".mp4" \/ ext = ".webm" \/ ext = ".mov".
Proof.
  split.
  - unfold mimeTypes, Str.table_get. table_cases ext; intros H; auto; discriminate H.
  - intros [-> | [-> | ->]]; reflexivity.
Qed.

(** X1: the [/uploads] middleware passes a request on to the range route
    exactly when the lower-cased extension of the last path component is
    [.mp4], [.webm] or [.mov]; every other request, whatever it names, goes
    to the static file server. *)
Theorem middleware_passes_three_extensions reqPath :
  let ext := Str.toLowerCase (Path.extname (Path.basename reqPath)) in
  (uploads_middleware reqPath = RangeRoute
   <-> ext = ".mp4" \/ ext = ".webm" \/ ext = ".mov")
  /\ (uploads_middleware reqPath = StaticServer
      <-> ~ (ext = ".mp4" \/ ext = ".webm" \/ ext = ".mov")).
Proof.
  cbv zeta. unfold uploads_middleware, getMimeType.
  pose proof (media_type_iff_ext
                (Str.toLowerCase (Path.extname (Path.basename reqPath)))) as H.
  destruct (Str.includes mediaMimeTypes _).
  - assert (Hext : Str.toLowerCase (Path.extname (Path.basename reqPath)) = ".mp4"
                   \/ Str.toLowerCase (Path.extname (Path.basename reqPath)) = ".webm"
                   \/ Str.toLowerCase (Path.extname (Path.basename reqPath)) = ".mov")
      by (apply H; reflexivity).
    split; split.
    + intros _. exact Hext.
    + reflexivity.
    + discriminate.
    + intros X. destruct (X Hext).
  - assert (Hext : ~ (Str.toLowerCase (Path.extname (Path.basename reqPath)) = ".mp4"
                      \/ Str.toLowerCase (Path.extname (Path.basename reqPath)) = ".webm"
                      \/ Str.toLowerCase (Path.extname (Path.basename reqPath)) = ".mov"))
      by (intros X; apply H in X; discriminate).
    split; split.
    + discriminate.
    + intros X. destruct (Hext X).
    + intros _. exact Hext.
    + reflexivity.
Qed.

Lemma extname_suffix_dot stem c e :
  Path.is_slash c = false ->
  Forall plain (Str.chars e) ->
  e <> "" ->
  Path.extname (stem +:+ String c (String "." e)) = String "." e.
Proof. apply extname_suffix. Qed.

Lemma tables_inverse ext m :
  Str.table_get mimeTypes ext = Some m <-> Str.table_get mimeToExt m = Some ext.
Proof.
  split.
  - unfold mimeTypes. cbn [Str.table_get]. table_cases ext; intros H;
      try discriminate H; injection H as <-; reflexivity.
  - unfold mimeToExt. cbn [Str.table_get]. table_cases m; intros H;
      try discriminate H; injection H as <-; reflexivity.
Qed.

(** X2: the two tables are inverse to each other.  A name whose extension
    is known gets a type from which [getExtensionFromMime] gives the
    (lower-cased) extension back, and appending the extension listed for a
    type to a name makes [getMimeType] return that type. *)
Theorem mime_tables_round_trip filename mimeType e stem c :
  getMimeType filename <> "application/octet-stream" ->
  Str.table_get mimeToExt mimeType = Some e ->
  Path.is_slash c = false ->
  getExtensionFromMime (Some (getMimeType filename))
  = Str.toLowerCase (Path.extname filename)
  /\ getExtensionFromMime (Some mimeType) = e
  /\ getMimeType (stem +:+ String c e) = mimeType.
Proof.
  intros Hknown He Hc. split; [|split].
  - unfold getMimeType in Hknown |- *.
    destruct (Str.table_get mimeTypes (Str.toLowerCase (Path.extname filename)))
      as [m|] eqn:Hm; [|exfalso; apply Hknown; reflexivity].
    change (default "" (Str.table_get mimeToExt m)
            = Str.toLowerCase (Path.extname filename)).
    apply tables_inverse in Hm. rewrite Hm. reflexivity.
  - unfold getExtensionFromMime.
    change (Some mimeType ≫= Str.table_get mimeToExt)
      with (Str.table_get mimeToExt mimeType).
    rewrite He. reflexivity.
  - pose proof He as Hinv. apply tables_inverse in Hinv.
    assert (Hname : Str.toLowerCase (Path.extname (stem +:+ String c e)) = e).
    { revert He. unfold mimeToExt. cbn [Str.table_get].
      table_cases mimeType; intros He; try discriminate He; injection He as <-;
        (rewrite (extname_suffix_dot stem c _ Hc);
         [reflexivity | repeat constructor | discriminate]). }
    unfold getMimeType. rewrite Hname, Hinv. reflexivity.
Qed.


(** *** Sanitized names *)

Lemma safe_not_slash c : safe_char c = true -> Path.is_slash c = false.
Proof.
  intros H. unfold Path.is_slash. destruct (Ascii.eqb_spec c "/"); [|reflexivity].
  subst c. discriminate H.
Qed.

Lemma sanitize_char_fixed c : safe_char c = true -> sanitize_char c = c.
Proof. intros H. unfold sanitize_char. rewrite H. reflexivity. Qed.

Lemma sanitizeFilename_length name :
  String.length (sanitizeFilename name) = String.length name.
Proof. induction name as [|c r IH]; cbn; [reflexivity | rewrite IH; reflexivity]. Qed.

Lemma sanitizeFilename_fixed name :
  Forall (fun c => safe_char c = true) (Str.chars name) -> sanitizeFilename name = name.
Proof.
  induction name as [|c r IH]; intros H; [reflexivity|].
  change (Str.chars (String c r)) with (c :: Str.chars r) in H.
  inversion H as [|? ? Hc Hr]; subst.
  cbn [sanitizeFilename]. rewrite (sanitize_char_fixed _ Hc), (IH Hr). reflexivity.
Qed.

(** X3: sanitizing keeps the length of a name, changes nothing in a name
    made of allowed characters only, and is therefore idempotent; a name is
    left as it is exactly when all its characters are allowed. *)
Theorem sanitizeFilename_idempotent name :
  sanitizeFilename (sanitizeFilename name) = sanitizeFilename name
  /\ String.length (sanitizeFilename name) = String.length name
  /\ (sanitizeFilename name = name
      <-> Forall (fun c => safe_char c = true) (Str.chars name)).
Proof.
  split; [apply sanitizeFilename_fixed, sanitizeFilename_safe|].
  split; [apply sanitizeFilename_length|].
  split; [|apply sanitizeFilename_fixed].
  intros H. rewrite <- H. apply sanitizeFilename_safe.
Qed.

Lemma drop_while_no_slash l :
  Forall (fun c => Path.is_slash c = false) l -> Path.drop_while Path.is_slash l = l.
Proof. destruct 1 as [|c l Hc _]; [reflexivity|]. cbn. rewrite Hc. reflexivity. Qed.

Lemma take_until_no_slash l :
  Forall (fun c => Path.is_slash c = false) l -> Path.take_until Path.is_slash l = l.
Proof.
  induction 1 as [|c l Hc _ IH]; [reflexivity|]. cbn. rewrite Hc, IH. reflexivity.
Qed.

Lemma existsb_no_slash l :
  Forall (fun c => Path.is_slash c = false) l -> existsb Path.is_slash l = false.
Proof.
  induction 1 as [|c l Hc _ IH]; [reflexivity|]. cbn. rewrite Hc, IH. reflexivity.
Qed.

Lemma basename_no_slash name :
  Forall (fun c => Path.is_slash c = false) (Str.chars name) -> Path.basename name = name.
Proof.
  intros H. unfold Path.basename, Path.component_rev.
  assert (Hr : Forall (fun c => Path.is_slash c = false) (rev (Str.chars name)))
    by (apply Forall_rev; exact H).
  rewrite (drop_while_no_slash _ Hr), (take_until_no_slash _ Hr), rev_involutive.
  apply of_chars_chars.
Qed.

Lemma sanitizeFilename_no_slash name :
  Forall (fun c => Path.is_slash c = false) (Str.chars (sanitizeFilename name)).
Proof.
  eapply Forall_impl; [apply sanitizeFilename_safe|].
  intros c Hc. apply safe_not_slash, Hc.
Qed.

(** X4: the name a file is stored under is never a path: it has no slash,
    so it is its own last component, and the URL path [/<stored name>]
    under [/uploads] matches the route [/uploads/:filename] with the stored
    name as its parameter. *)
Theorem stored_name_is_one_segment name :
  name <> "" ->
  let stored := sanitizeFilename name in
  stored <> ""
  /\ existsb Path.is_slash (Str.chars stored) = false
  /\ Path.basename stored = stored
  /\ route_filename ("/" +:+ stored) = Some stored.
Proof.
  intros Hne. cbv zeta.
  pose proof (sanitizeFilename_no_slash name) as Hns.
  assert (Hstored : sanitizeFilename name <> "")
    by (destruct name; [congruence | discriminate]).
  split; [exact Hstored|].
  split; [apply existsb_no_slash, Hns|].
  split; [apply basename_no_slash, Hns|].
  change ("/" +:+ sanitizeFilename name) with (String "/" (sanitizeFilename name)).
  unfold route_filename. rewrite (existsb_no_slash _ Hns).
  destruct (sanitizeFilename name); [congruence | reflexivity].
Qed.


(** *** POST /upload: rejections and files that are not media *)

(** X5: a request without a file, and a file whose declared type is not on
    the allow-list, are answered 400; nothing is stored and nothing runs. *)
Theorem rejected_uploads_change_nothing p w :
  Str.includes allowedMimeTypes (part_mimetype p) = false ->
  app_post_upload (Some p) w
  = (json 400 [("error", JStr "File type not supported!")], w)
  /\ app_post_upload None w
     = (json 400 [("error", JStr "No file uploaded.")], w).
Proof.
  intros Htype. unfold app_post_upload, run_route, bind, multer_single.
  rewrite Htype. split; reflexivity.
Qed.

(** X6: a file of an allowed type that exceeds the size limit is answered
    413 with the limit in the message; the handler does not run and the
    engine is not invoked. *)
Theorem oversized_upload_is_413 p w :
  Str.includes allowedMimeTypes (part_mimetype p) = true ->
  MAX_UPLOAD_SIZE < Z.of_nat (length (part_content p)) ->
  let '(r, w') := app_post_upload (Some p) w in
  r = json 413 [("error", JStr ("File is too large. Maximum size is "
                                  +:+ formatBytes MAX_UPLOAD_SIZE +:+ "."))]
  /\ encode_count (trace w') = encode_count (trace w).
Proof.
  intros Htype Hsize. unfold app_post_upload, run_route, bind, multer_single.
  rewrite Htype.
  replace (MAX_UPLOAD_SIZE <=? _) with true by (symmetry; apply Z.leb_le; lia).
  split; reflexivity.
Qed.

(** X7: an accepted file whose declared type is not a media type is stored
    under its sanitized name (a file name, its path no directory) and
    answered 200 with its download URL; the only event is that write: no
    directory is made and the engine is not invoked. *)
Theorem plain_upload_is_stored p w :
  accepted p ->
  Str.includes mediaMimeTypes (part_mimetype p) = false ->
  storable (fs w) (sanitizeFilename (part_originalname p)) ->
  let stored := sanitizeFilename (part_originalname p) in
  let dest := Path.join uploadDir stored in
  app_post_upload (Some p) w
  = (json 200 [("message", JStr "File uploaded successfully.");
               ("fileUrl", JStr (origin +:+ "/uploads/" +:+ encodeURIComponent stored))],
     {| fs := <[dest := File (part_content p)]> (fs w);
        trace := trace w ++ [EvWriteFile dest] |}).
Proof.
  intros Hacc Hplain _. cbv zeta. unfold app_post_upload, run_route, bind.
  rewrite (multer_single_accepted _ _ Hacc).
  unfold post_upload. cbn [ReqFile.mimetype ReqFile.filename].
  rewrite Hplain. reflexivity.
Qed.


(** *** Stored media files and the GET handlers *)

Lemma append_assoc a b c : (a +:+ b) +:+ c = a +:+ (b +:+ c).
Proof.
  induction a as [|x a IH]; [reflexivity|].
  change ((String x (a +:+ b)) +:+ c = String x (a +:+ (b +:+ c))).
  change (String x ((a +:+ b) +:+ c) = String x (a +:+ (b +:+ c))).
  rewrite IH. reflexivity.
Qed.

Lemma append_cancel a x y : a +:+ x = a +:+ y -> x = y.
Proof.
  induction a as [|c a IH]; intros H; [exact H|].
  change (String c (a +:+ x) = String c (a +:+ y)) in H.
  injection H as H. exact (IH H).
Qed.

Lemma length_append a b :
  String.length (a +:+ b) = (String.length a + String.length b)%nat.
Proof.
  induction a as [|c a IH]; [reflexivity|].
  change (S (String.length (a +:+ b)) = S (String.length a + String.length b)).
  rewrite IH. reflexivity.
Qed.

Lemma master_path_unfold storedName :
  master_path storedName
  = Path.join uploadDir (Path.parse_name storedName +:+ "/master.m3u8").
Proof. unfold master_path, hls_dir, Path.join. rewrite append_assoc. reflexivity. Qed.

(** A file stored directly in the upload directory is not a master
    manifest. *)
Lemma stored_file_not_master stored storedName :
  Forall (fun c => Path.is_slash c = false) (Str.chars stored) ->
  master_path storedName <> Path.join uploadDir stored.
Proof.
  intros Hns H. rewrite master_path_unfold in H. unfold Path.join in H.
  apply append_cancel, append_cancel in H.
  rewrite <- H, chars_app in Hns. apply Forall_app in Hns as [_ Hns].
  change (Str.chars "/master.m3u8") with ("/"%char :: Str.chars "master.m3u8") in Hns.
  inversion Hns as [|? ? Hslash _]. discriminate Hslash.
Qed.

Lemma ensure_dir_keeps storedName (f : gmap string node) p n :
  f !! p = Some n -> ensure_dir storedName f !! p = Some n.
Proof.
  intros Hp. unfold ensure_dir.
  destruct (bool_decide (is_Some (f !! hls_dir storedName))) eqn:Hd; [exact Hp|].
  rewrite lookup_insert_ne; [exact Hp|].
  intros Heq. rewrite Heq in Hd.
  apply bool_decide_eq_false in Hd. apply Hd. rewrite Hp. eauto.
Qed.

(** [req.file] as Multer hands it to the handler. *)
Lemma app_post_upload_media p w :
  accepted p ->
  Str.includes mediaMimeTypes (part_mimetype p) = true ->
  let stored := sanitizeFilename (part_originalname p) in
  let dest := Path.join uploadDir stored in
  let job := hls_command upload_options dest (hls_dir stored) in
  let w1 := {| fs := <[dest := File (part_content p)]> (fs w);
               trace := trace w ++ [EvWriteFile dest] |} in
  let pre := ensure_dir_events stored (fs w1) in
  app_post_upload (Some p) w
  = match engine job (ensure_dir stored (fs w1)) with
    | (None, f') =>
        (json 200 [("message", JStr "Media file uploaded and converted to HLS successfully.");
                   ("watchUrl", JStr (origin +:+ "/watch/" +:+ encodeURIComponent stored))],
         {| fs := <[master_path stored := File (bytes_of masterPlaylist)]> f';
            trace := trace w1 ++ pre ++ [EvEncodeStart job; EvEncodeEnd job true;
                                          EvWriteFile (master_path stored)] |})
    | (Some msg, f') =>
        (upload_failed_response,
         {| fs := f';
            trace := trace w1 ++ pre ++ [EvEncodeStart job; EvEncodeEnd job false] |})
    end.
Proof.
  intros Hacc Hmedia. cbv zeta. unfold app_post_upload, run_route, bind.
  rewrite (multer_single_accepted _ _ Hacc).
  rewrite post_upload_media by exact Hmedia.
  unfold upload_job. cbn [ReqFile.filename ReqFile.path fs trace].
  destruct (engine _ _) as [[msg|] f']; reflexivity.
Qed.


Lemma get_uploads_whole w filename content range :
  stored_media w filename content ->
  header_value range = None ->
  get_uploads filename range w
  = (Ok {| status := 200;
           headers := [ ("Content-Length", JS.show_Z (file_size content));
                        ("Content-Type", getMimeType filename) ];
           payload := Piped (Some content) |},
     opened w (Path.join uploadDir filename)).
Proof.
  intros [Hfile Hmedia] Hrange. unfold get_uploads. unfold_m.
  rewrite (exists_true _ _ _ Hfile). red_m.
  rewrite Hmedia. red_m. rewrite Hfile, Hrange. red_m. rewrite Hfile. reflexivity.
Qed.





(** X10: the GET handlers only read.  [GET /watch/:filename] returns in
    the world it was called in; [GET /uploads/:filename] leaves the file
    system as it is and records at most the opening of one read stream,
    on the requested file. *)
Theorem get_handlers_only_read filename range w :
  snd (get_watch filename w) = w
  /\ fs (snd (get_uploads filename range w)) = fs w
  /\ (trace (snd (get_uploads filename range w)) = trace w
      \/ trace (snd (get_uploads filename range w))
         = (trace w ++ [EvOpenRead (Path.join uploadDir filename)])%list).
Proof.
  split; [|split].
  - unfold get_watch. unfold_m.
    destruct (bool_decide _); red_m; [|reflexivity].
    destruct (Str.includes _ _); red_m; [|reflexivity].
    destruct (fs w !! Path.join uploadDir filename) as [[c|]|]; try reflexivity;
      destruct (bool_decide _); reflexivity.
  - unfold get_uploads. unfold_m.
    destruct (bool_decide _); red_m; [|reflexivity].
    destruct (Str.includes _ _); red_m; [|reflexivity].
    destruct (fs w !! Path.join uploadDir filename) as [[c|]|] eqn:Hf;
      try reflexivity;
      (destruct (header_value range) as [r|]; [|red_m; rewrite Hf; reflexivity]);
      (destruct (JS.ge _ _); [reflexivity|]);
      match goal with
      | |- context [range_end r ?z] =>
          destruct (range_start r) as [|s], (range_end r z) as [|e]
      end; try reflexivity;
      destruct (0 <=? s), (0 <=? e), (s <=? e); red_m; try reflexivity;
      rewrite Hf; reflexivity.
  - unfold get_uploads. unfold_m.
    destruct (bool_decide _); red_m; [|left; reflexivity].
    destruct (Str.includes _ _); red_m; [|left; reflexivity].
    destruct (fs w !! Path.join uploadDir filename) as [[c|]|] eqn:Hf;
      try (left; reflexivity);
      (destruct (header_value range) as [r|]; [|red_m; rewrite Hf; right; reflexivity]);
      (destruct (JS.ge _ _); [left; reflexivity|]);
      match goal with
      | |- context [range_end r ?z] =>
          destruct (range_start r) as [|s], (range_end r z) as [|e]
      end; try (left; reflexivity);
      destruct (0 <=? s), (0 <=? e), (s <=? e); red_m; try (left; reflexivity);
      rewrite Hf; right; reflexivity.
Qed.


(** X11: without a [Range] header, or with an empty one, a stored media
    file is answered 200 with its size as [Content-Length], its type, and
    all its bytes. *)
Theorem no_range_serves_whole_file w filename content :
  stored_media w filename content ->
  let whole :=
    (Ok {| status := 200;
           headers := [ ("Content-Length", JS.show_Z (file_size content));
                        ("Content-Type", getMimeType filename) ];
           payload := Piped (Some content) |},
     opened w (Path.join uploadDir filename)) in
  get_uploads filename None w = whole
  /\ get_uploads filename (Some "") w = whole.
Proof.
  intros Hst. split; apply get_uploads_whole; auto.
Qed.

(** X12: a name that is not stored is answered 404 by both GET handlers,
    before its type is looked at and whatever the [Range] header says; the
    world is left as it is. *)
Theorem missing_file_is_404 filename range w :
  fs w !! Path.join uploadDir filename = None ->
  get_uploads filename range w = (Ok (send 404 "File not found."), w)
  /\ get_watch filename w = (Ok (send 404 "File not found."), w).
Proof.
  intros Hnone. unfold get_uploads, get_watch. unfold_m.
  rewrite (exists_false _ _ Hnone). split; reflexivity.
Qed.

(** X13: a window that starts inside the file and ends at or beyond its
    end (at a safe integer, which the read stream accepts) is answered
    206 with [Content-Length = end - start + 1], but the body stops at the
    end of the file: it holds [fileSize - start] bytes, fewer than the
    header announces. *)
Theorem end_beyond_file_truncates_body w filename content s e :
  stored_media w filename content ->
  0 <= s < file_size content ->
  file_size content <= e <= JS.max_safe_integer ->
  get_uploads filename (Some (range_header s e)) w
  = (Ok {| status := 206;
           headers :=
             [ ("Content-Range", "bytes " +:+ JS.show_Z s +:+ "-" +:+ JS.show_Z e
                                   +:+ "/" +:+ JS.show_Z (file_size content));
               ("Accept-Ranges", "bytes");
               ("Content-Length", JS.show_Z (e - s + 1));
               ("Content-Type", getMimeType filename) ];
           payload := Piped (Some (drop (Z.to_nat s) content)) |},
     opened w (Path.join uploadDir filename))
  /\ Z.of_nat (length (drop (Z.to_nat s) content)) = file_size content - s
  /\ file_size content - s < e - s + 1.
Proof.
  intros Hst Hs He.
  destruct (range_header_parses s e (file_size content)) as (Ht & Hps & Hpe); [lia..|].
  assert (Hlen : Z.of_nat (length (drop (Z.to_nat s) content)) = file_size content - s)
    by (rewrite length_drop; unfold file_size in Hs |- *; lia).
  split; [|split; [exact Hlen | lia]].
  rewrite (get_uploads_partial _ _ _ _ s e Hst Ht Hps Hpe) by lia.
  unfold window. rewrite take_ge by lia. reflexivity.
Qed.

Lemma length_of_chars l : String.length (Str.of_chars l) = length l.
Proof.
  unfold Str.of_chars. induction l as [|c l IH]; cbn; [reflexivity | rewrite IH; reflexivity].
Qed.

Lemma length_chars s : length (Str.chars s) = String.length s.
Proof.
  unfold Str.chars. induction s as [|c s IH]; cbn; [reflexivity | rewrite IH; reflexivity].
Qed.

Lemma drop_while_length p l : (length (Path.drop_while p l) <= length l)%nat.
Proof. induction l as [|c l IH]; cbn; [lia|]. destruct (p c); cbn; lia. Qed.

Lemma take_until_length p l : (length (Path.take_until p l) <= length l)%nat.
Proof. induction l as [|c l IH]; cbn; [lia|]. destruct (p c); cbn; lia. Qed.

Lemma component_rev_length f : (length (Path.component_rev f) <= String.length f)%nat.
Proof.
  unfold Path.component_rev.
  pose proof (take_until_length Path.is_slash
                (Path.drop_while Path.is_slash (rev (Str.chars f)))).
  pose proof (drop_while_length Path.is_slash (rev (Str.chars f))).
  rewrite length_rev, length_chars in H0. lia.
Qed.

(** A name with an extension is longer than its [name] part. *)
Lemma parse_name_shorter f :
  Path.extname f <> "" ->
  (String.length (Path.parse_name f) < String.length f)%nat.
Proof.
  unfold Path.extname, Path.parse_name. intros Hext.
  pose proof (component_rev_length f) as Hlen.
  destruct (Path.component_rev f) as [|c rb] eqn:Hrb; [exfalso; apply Hext; reflexivity|].
  destruct (Path.ext_rev (c :: rb)) as [|x er] eqn:He; [exfalso; apply Hext; reflexivity|].
  rewrite length_of_chars, length_rev, length_drop. cbn [length] in Hlen |- *. lia.
Qed.


Lemma media_name_has_extension filename :
  Str.includes mediaMimeTypes (getMimeType filename) = true ->
  Path.extname filename <> "".
Proof.
  intros Hmedia Hext. unfold getMimeType in Hmedia. rewrite Hext in Hmedia.
  discriminate Hmedia.
Qed.

(** X14: whenever the watch page is served, the manifest URL it hands to
    the player is [/uploads/<filename>/master.m3u8], with the whole file
    name as directory, while the manifest whose existence was checked lies
    in the directory named after the file name without its extension: for
    a name that [encodeURIComponent] leaves unchanged, the URL path is not
    the path of the manifest. *)
Theorem watch_page_url_is_not_manifest_path filename w r w' :
  get_watch filename w = (Ok r, w') ->
  status r = 200 ->
  (exists size,
     payload r = WatchPage ("/uploads/" +:+ encodeURIComponent filename +:+ "/master.m3u8")
                           filename size (getMimeType filename))
  /\ is_Some (fs w !! master_path filename)
  /\ (encodeURIComponent filename = filename ->
      "/" +:+ master_path filename
      <> "/uploads/" +:+ encodeURIComponent filename +:+ "/master.m3u8").
Proof.
  unfold get_watch. unfold_m.
  destruct (bool_decide (is_Some (fs w !! Path.join uploadDir filename))); red_m;
    [|intros [= <- <-]; discriminate].
  destruct (Str.includes mediaMimeTypes (getMimeType filename)) eqn:Hmedia; red_m;
    [|intros [= <- <-]; discriminate].
  fold (hls_dir filename). fold (master_path filename).
  destruct (fs w !! Path.join uploadDir filename) as [[c|]|];
    try (intros [= <- <-]; discriminate);
    (destruct (bool_decide (is_Some (fs w !! master_path filename))) eqn:Hm; red_m;
     [|intros [= <- <-]; discriminate]);
    intros [= <- <-] _; apply bool_decide_eq_true in Hm;
    (split; [eexists; reflexivity|]); (split; [exact Hm|]);
    intros Henc Heq; rewrite Henc in Heq;
    pose proof (parse_name_shorter _ (media_name_has_extension _ Hmedia)) as Hlt;
    apply (f_equal String.length) in Heq;
    unfold master_path, hls_dir, Path.join in Heq;
    rewrite !length_append in Heq; cbn [String.length uploadDir] in Heq; lia.
Qed.

(** *** Range headers with more than one range *)

Lemma digits_uint_app d acc rest :
  JS.digits (Some acc) (NilEmpty.string_of_uint d +:+ rest)
  = JS.digits (Some (uint_value d acc)) rest.
Proof.
  revert acc. induction d; intros acc; cbn [NilEmpty.string_of_uint uint_value];
    try reflexivity;
    match goal with
    | |- context [String ?c ?s +:+ rest] =>
        change (String c s +:+ rest) with (String c (s +:+ rest))
    end;
    cbn [JS.digits]; change (Str.is_digit _) with true; cbv iota;
    rewrite <- IHd; reflexivity.
Qed.

Lemma parseInt_numeral_suffix d c rest :
  d <> Decimal.Nil ->
  Str.is_digit c = false ->
  JS.parseInt (NilEmpty.string_of_uint d +:+ String c rest) = JS.Int (uint_value d 0).
Proof.
  intros Hd Hc. destruct d; [congruence| ..];
    cbn [NilEmpty.string_of_uint uint_value];
    match goal with
    | |- context [String ?x ?s +:+ ?t] =>
        change (String x s +:+ t) with (String x (s +:+ t))
    end;
    unfold JS.parseInt; cbn [JS.skip_space];
    change (JS.is_space _) with false; cbv iota;
    cbn [JS.digits]; change (Str.is_digit _) with true at 1; cbv iota;
    cbn [default]; rewrite digits_uint_app; cbn [JS.digits]; rewrite Hc;
    f_equal; rewrite Z.mul_1_l; reflexivity.
Qed.

(** [parseInt] reads the number in front of any text that does not start
    with a digit. *)
Lemma parseInt_show_Z_suffix z c rest :
  0 <= z -> Str.is_digit c = false ->
  JS.parseInt (JS.show_Z z +:+ String c rest) = JS.Int z.
Proof.
  intros Hz Hc. destruct (show_Z_numeral z Hz) as (d & Hd & -> & <-).
  apply parseInt_numeral_suffix; assumption.
Qed.

Lemma split_nonempty sep s : exists h tl, Str.split sep s = h :: tl.
Proof.
  induction s as [|c s (h & tl & IH)]; cbn; [eauto|].
  destruct (Ascii.eqb c sep); [eauto|]. rewrite IH. eauto.
Qed.

Lemma split_prefix_no_dash s t h tl :
  no_dash s ->
  Str.split "-" t = h :: tl ->
  Str.split "-" (s +:+ t) = (s +:+ h) :: tl.
Proof.
  unfold no_dash. induction s as [|c s IH]; intros Hs Ht; [exact Ht|].
  change (String c s +:+ t) with (String c (s +:+ t)).
  change (Str.chars (String c s)) with (c :: Str.chars s) in Hs.
  inversion Hs as [|? ? Hc Hr]; subst.
  cbn [Str.split]. rewrite Hc, (IH Hr Ht). reflexivity.
Qed.

(** The first two parts of a header [bytes=a-b,...]. *)
Lemma multi_range_parts a b rest :
  0 <= a -> 0 <= b ->
  exists h tl,
    range_parts (range_header a b +:+ String "," rest)
    = JS.show_Z a :: (JS.show_Z b +:+ String "," h) :: tl.
Proof.
  intros Ha Hb. unfold range_parts, range_header.
  rewrite !append_assoc, remove_first_bytes.
  change ("-" +:+ JS.show_Z b +:+ String "," rest)
    with (String "-" (JS.show_Z b +:+ String "," rest)).
  rewrite split_at_dash by (apply show_Z_no_dash, Ha).
  destruct (split_nonempty "-" rest) as (h & tl & Hrest).
  exists h, tl. f_equal.
  apply split_prefix_no_dash; [apply show_Z_no_dash, Hb|].
  cbn [Str.split]. change (Ascii.eqb "," "-") with false. cbv iota.
  rewrite Hrest. reflexivity.
Qed.

(** Two headers that are read as the same window get the same answer. *)
Lemma get_uploads_same_window filename r1 r2 w :
  Str.truthy r1 = true -> Str.truthy r2 = true ->
  range_start r1 = range_start r2 ->
  (forall fileSize, range_end r1 fileSize = range_end r2 fileSize) ->
  get_uploads filename (Some r1) w = get_uploads filename (Some r2) w.
Proof.
  intros H1 H2 Hs He. unfold get_uploads, header_value. rewrite H1, H2, Hs.
  unfold_m.
  destruct (bool_decide _); red_m; [|reflexivity].
  destruct (Str.includes _ _); red_m; [|reflexivity].
  destruct (fs w !! Path.join uploadDir filename) as [[c|]|];
    try reflexivity; rewrite He; reflexivity.
Qed.

(** X15: a header with several ranges, [bytes=a-b,...], is answered like
    the header [bytes=a-b]: only its first range is looked at, and what
    follows the comma is ignored. *)
Theorem multi_range_is_first_range filename a b rest w :
  0 <= a -> 0 <= b ->
  get_uploads filename (Some (range_header a b +:+ "," +:+ rest)) w
  = get_uploads filename (Some (range_header a b)) w.
Proof.
  intros Ha Hb.
  change ("," +:+ rest) with (String "," rest).
  destruct (multi_range_parts a b rest Ha Hb) as (h & tl & Hparts).
  destruct (range_header_parses a b 0 Ha Hb) as (Ht & Hs & _).
  apply get_uploads_same_window.
  - reflexivity.
  - exact Ht.
  - rewrite Hs. unfold range_start. rewrite Hparts.
    cbn [lookup list_lookup JS.parseInt_opt]. apply parseInt_show_Z, Ha.
  - intros fileSize.
    destruct (range_header_parses a b fileSize Ha Hb) as (_ & _ & He).
    rewrite He. unfold range_end. rewrite Hparts.
    cbn [lookup list_lookup header_value].
    replace (Str.truthy (JS.show_Z b +:+ String "," h)) with true.
    + apply parseInt_show_Z_suffix; [exact Hb | reflexivity].
    + destruct (show_Z_numeral b Hb) as (d & Hd & -> & _).
      destruct d; [congruence| ..]; reflexivity.
Qed.


(** *** POST /upload-url: failures, media, names and sizes *)

(** X16: URL ingestion without a URL is answered 400 and does nothing;
    when the fetch fails, or the URL has no parsable path, the answer is
    500 and nothing is stored: the file system is as before. *)
Theorem failed_url_ingestion_stores_nothing fileUrl w :
  Str.truthy fileUrl = true ->
  fetch fileUrl = None \/ url_pathname fileUrl = None ->
  post_upload_url (Some fileUrl) w
  = (Ok download_failed, {| fs := fs w; trace := trace w ++ [EvFetch fileUrl] |})
  /\ post_upload_url None w = (Ok (json 400 [("error", JStr "No URL provided.")]), w)
  /\ post_upload_url (Some "") w = (Ok (json 400 [("error", JStr "No URL provided.")]), w).
Proof.
  intros Htruthy Hfail. split; [|split; reflexivity].
  unfold post_upload_url, header_value. rewrite Htruthy.
  unfold try_catch, bind, emit.
  destruct (fetch fileUrl) as [resp|]; [|reflexivity].
  destruct Hfail as [Hf | Hp]; [discriminate Hf|]. rewrite Hp. reflexivity.
Qed.

Lemma post_upload_url_media_run fileUrl resp pathname w :
  Str.truthy fileUrl = true ->
  fetch fileUrl = Some resp ->
  url_pathname fileUrl = Some pathname ->
  Str.includes mediaMimeTypes (url_mimeType resp) = true ->
  let stored := url_stored_name pathname resp in
  let filePath := Path.join uploadDir stored in
  let job := hls_command upload_url_options filePath (hls_dir stored) in
  let w1 := {| fs := <[filePath := File (data resp)]> (fs w);
               trace := trace w ++ [EvFetch fileUrl; EvWriteFile filePath] |} in
  let pre := ensure_dir_events stored (fs w1) in
  post_upload_url (Some fileUrl) w
  = match engine job (ensure_dir stored (fs w1)) with
    | (None, f') =>
        (Ok (json 200
               [("message",
                 JStr "Media file downloaded and converted to HLS successfully via URL.");
                ("watchUrl", JStr (origin +:+ "/watch/" +:+ encodeURIComponent stored));
                ("fileUrl", JNull);
                ("metadata", JMetadata stored (url_size resp) (url_mimeType resp))]),
         {| fs := <[master_path stored := File (bytes_of masterPlaylist)]> f';
            trace := trace w1 ++ pre ++ [EvEncodeStart job; EvEncodeEnd job true;
                                          EvWriteFile (master_path stored)] |})
    | (Some msg, f') =>
        (Ok download_failed,
         {| fs := f';
            trace := trace w1 ++ pre ++ [EvEncodeStart job; EvEncodeEnd job false] |})
    end.
Proof.
  intros Htruthy Hfetch Hpath Hmedia. cbv zeta.
  unfold post_upload_url, header_value. rewrite Htruthy.
  unfold try_catch, bind at 1, emit at 1. rewrite Hfetch, Hpath, Hmedia.
  fold (url_stored_name pathname resp). fold (url_size resp).
  unfold_m. red_m.
  rewrite convert_to_hls_run. cbn [fs trace].
  destruct (engine _ _) as [[msg|] f'];
    (f_equal; f_equal; rewrite <- !app_assoc; reflexivity).
Qed.

(** X17: URL ingestion of a media response.  The downloaded bytes are kept
    under the sanitized name (a file name, its path no directory) whether the
    conversion succeeds or fails, provided the engine leaves its input
    alone; on success with the output directory in place the answer
    carries the watch URL and the manifest is on disk, on failure the
    answer is the same 500 as for a failed download. *)
Theorem url_media_ingestion fileUrl resp pathname w :
  Str.truthy fileUrl = true ->
  fetch fileUrl = Some resp ->
  url_pathname fileUrl = Some pathname ->
  Str.includes mediaMimeTypes (url_mimeType resp) = true ->
  storable (fs w) (url_stored_name pathname resp) ->
  JS.safe (JS.parseInt_opt (content_length resp)) ->
  engine_preserves engine
    (hls_command upload_url_options
       (Path.join uploadDir (url_stored_name pathname resp))
       (hls_dir (url_stored_name pathname resp)))
    (Path.join uploadDir (url_stored_name pathname resp)) ->
  let stored := url_stored_name pathname resp in
  let filePath := Path.join uploadDir stored in
  let job := hls_command upload_url_options filePath (hls_dir stored) in
  let ran := engine job (ensure_dir stored (<[filePath := File (data resp)]> (fs w))) in
  let '(r, w') := post_upload_url (Some fileUrl) w in
  fs w' !! filePath = Some (File (data resp))
  /\ (fst ran = None ->
      output_ready (snd ran) stored ->
      r = Ok (json 200
                [("message",
                  JStr "Media file downloaded and converted to HLS successfully via URL.");
                 ("watchUrl", JStr (origin +:+ "/watch/" +:+ encodeURIComponent stored));
                 ("fileUrl", JNull);
                 ("metadata", JMetadata stored (url_size resp) (url_mimeType resp))])
      /\ fs w' !! master_path stored = Some (File (bytes_of masterPlaylist)))
  /\ (forall msg, fst ran = Some msg -> r = Ok download_failed).
Proof.
  intros Htruthy Hfetch Hpath Hmedia _ _ Hkeep. cbv zeta.
  rewrite (post_upload_url_media_run _ _ _ w Htruthy Hfetch Hpath Hmedia). cbn [fs trace].
  pose proof (Hkeep (ensure_dir (url_stored_name pathname resp)
                       (<[Path.join uploadDir (url_stored_name pathname resp)
                          := File (data resp)]> (fs w)))) as Hk.
  rewrite (ensure_dir_keeps _ _ _ (File (data resp))) in Hk by apply lookup_insert_eq.
  destruct (engine _ _) as [[msg|] f']; cbn [fst snd fs] in Hk |- *.
  - split; [exact Hk|]. split; [discriminate|]. intros msg' _. reflexivity.
  - split; [|split].
    + rewrite lookup_insert_ne; [exact Hk|].
      apply stored_file_not_master. unfold url_stored_name.
      apply sanitizeFilename_no_slash.
    + intros _ _. split; [reflexivity | apply lookup_insert_eq].
    + intros msg Hmsg. discriminate Hmsg.
Qed.


Lemma take_until_forall l :
  Forall (fun c => Path.is_slash c = false) (Path.take_until Path.is_slash l).
Proof.
  induction l as [|c l IH]; cbn; [constructor|].
  destruct (Path.is_slash c) eqn:Hc; constructor; assumption.
Qed.

Lemma basename_chars p :
  Forall (fun c => Path.is_slash c = false) (Str.chars (Path.basename p)).
Proof.
  unfold Path.basename, Str.chars, Str.of_chars.
  rewrite list_ascii_of_string_of_list_ascii.
  apply Forall_rev, take_until_forall.
Qed.

(** [path.basename] never returns a slash, so the second test of
    [!filename || filename === '/'] never decides. *)
Lemma basename_not_slash p : String.eqb (Path.basename p) "/" = false.
Proof.
  apply String.eqb_neq. intros H. pose proof (basename_chars p) as Hc.
  rewrite H in Hc. inversion Hc as [|? ? Hslash _]. discriminate Hslash.
Qed.

(** X18: the file name taken from a URL is the last component of its
    path; when the path has none, it is [downloaded-file], followed by the
    extension listed for the content type when the response has one of
    the listed types.  It is never empty, and the name it is stored under
    matches the route [/uploads/:filename]. *)
Theorem url_file_name pathname r :
  (Path.basename pathname <> "" -> url_filename pathname r = Path.basename pathname)
  /\ (Path.basename pathname = "" -> content_type r = None ->
      url_filename pathname r = "downloaded-file")
  /\ (forall t e,
        Path.basename pathname = "" -> content_type r = Some t ->
        Str.table_get mimeToExt t = Some e ->
        url_filename pathname r = "downloaded-file" +:+ e)
  /\ url_filename pathname r <> ""
  /\ route_filename ("/" +:+ url_stored_name pathname r) = Some (url_stored_name pathname r).
Proof.
  assert (Hname : url_filename pathname r
                  = if Str.truthy (Path.basename pathname) then Path.basename pathname
                    else "downloaded-file" +:+ getExtensionFromMime (content_type r)).
  { unfold url_filename. rewrite basename_not_slash.
    destruct (Str.truthy (Path.basename pathname)); reflexivity. }
  assert (Hne : url_filename pathname r <> "").
  { rewrite Hname. destruct (Path.basename pathname) eqn:Hb; cbn [Str.truthy]; discriminate. }
  split; [|split; [|split; [|split]]].
  - intros Hb. rewrite Hname. destruct (Path.basename pathname); [congruence | reflexivity].
  - intros Hb Hct. rewrite Hname, Hb, Hct. reflexivity.
  - intros t e Hb Hct He. rewrite Hname, Hb, Hct. unfold getExtensionFromMime.
    change (Some t ≫= Str.table_get mimeToExt) with (Str.table_get mimeToExt t).
    rewrite He. reflexivity.
  - exact Hne.
  - pose proof (sanitizeFilename_no_slash (url_filename pathname r)) as Hns.
    unfold url_stored_name.
    change ("/" +:+ sanitizeFilename (url_filename pathname r))
      with (String "/" (sanitizeFilename (url_filename pathname r))).
    unfold route_filename. rewrite (existsb_no_slash _ Hns).
    destruct (url_filename pathname r); [congruence | reflexivity].
Qed.

(** X19: the size reported for a URL ingestion is read off the
    [content-length] header: the number it holds, when that is a safe
    integer, and 0 when the header is missing or does not start with a
    number.  It is never [NaN]. *)
Theorem url_reported_size r :
  url_size r <> JS.NaN
  /\ (content_length r = None -> url_size r = JS.Int 0)
  /\ (forall s, content_length r = Some s -> JS.parseInt s = JS.NaN ->
        url_size r = JS.Int 0)
  /\ (forall n, 0 <= n <= JS.max_safe_integer ->
        content_length r = Some (JS.show_Z n) -> url_size r = JS.Int n).
Proof.
  unfold url_size. split; [|split; [|split]].
  - destruct (JS.parseInt_opt (content_length r)) as [|z]; [discriminate|].
    unfold JS.or_else, JS.truthy. destruct (z =? 0); cbn; discriminate.
  - intros ->. reflexivity.
  - intros s -> Hnan. cbn [JS.parseInt_opt]. rewrite Hnan. reflexivity.
  - intros n [Hn _] ->. cbn [JS.parseInt_opt]. rewrite (parseInt_show_Z _ Hn).
    unfold JS.or_else, JS.truthy. destruct (Z.eqb_spec n 0); [subst|]; reflexivity.
Qed.


(** *** The engine command, the manifest entries and the configuration *)

Lemma join_cancel d a b : Path.join d a = Path.join d b -> a = b.
Proof. unfold Path.join. intros H. apply append_cancel, append_cancel in H. exact H. Qed.

(** X20: whatever the input and the asset, the engine is invoked on one
    command with three outputs: three different playlists in the output
    directory of the asset, each encoded with libx264 and without audio.
    The master manifest is not among the files the engine is asked for. *)
Theorem engine_command_outputs options input storedName :
  let dir := hls_dir storedName in
  let job := hls_command options input dir in
  job_input job = input
  /\ map out_playlist (job_outputs job)
     = [ Path.join dir "720p.m3u8"; Path.join dir "480p.m3u8"; Path.join dir "360p.m3u8" ]
  /\ NoDup (map out_playlist (job_outputs job))
  /\ ~ In (master_path storedName) (map out_playlist (job_outputs job))
  /\ Forall (fun o => out_codec o = "libx264" /\ out_noAudio o = true
                      /\ exists level, In level qualityLevels
                           /\ out_size o = Level.size level
                           /\ out_bitrate o = Level.bitrate level
                           /\ out_options o
                              = [ "-hls_segment_filename";
                                  Path.join dir (Level.name level +:+ "_%03d.ts") ])
            (job_outputs job).
Proof.
  cbv zeta. split; [reflexivity|]. split; [reflexivity|].
  change (map out_playlist (job_outputs (hls_command options input (hls_dir storedName))))
    with [ Path.join (hls_dir storedName) "720p.m3u8";
           Path.join (hls_dir storedName) "480p.m3u8";
           Path.join (hls_dir storedName) "360p.m3u8" ].
  split; [|split].
  - repeat constructor; cbn [In elem_of]; rewrite ?list_elem_of_In; cbn [In];
      intros H; repeat (destruct H as [H | H]; [apply join_cancel in H; discriminate H|]);
      exact H.
  - unfold master_path. cbn [In].
    intros H; repeat (destruct H as [H | H]; [apply join_cancel in H; discriminate H|]);
      exact H.
  - unfold hls_command, qualityLevels. cbn [map job_outputs].
    repeat constructor; eexists; (split; [|split; [|split]; reflexivity]); cbn [In]; auto.
Qed.

(** Without a radix, [parseInt] reads a decimal numeral as with radix 10
    unless the text starts with [0x] or [0X]. *)
Lemma parseInt_auto_numeral_suffix d c rest :
  d <> Decimal.Nil ->
  (d = Decimal.D0 Decimal.Nil -> Ascii.eqb c "x" || Ascii.eqb c "X" = false) ->
  JS.parseInt_auto (NilEmpty.string_of_uint d +:+ String c rest)
  = JS.parseInt (NilEmpty.string_of_uint d +:+ String c rest).
Proof.
  intros Hd Hx. destruct d as [|d|d|d|d|d|d|d|d|d|d]; [congruence| ..];
    cbn [NilEmpty.string_of_uint];
    match goal with
    | |- context [String ?x ?s +:+ ?t] =>
        change (String x s +:+ t) with (String x (s +:+ t))
    end;
    try reflexivity.
  destruct d; cbn [NilEmpty.string_of_uint];
    try (match goal with
         | |- context [String ?x ?s +:+ ?t] =>
             change (String x s +:+ t) with (String x (s +:+ t))
         end; reflexivity).
  change ("" +:+ String c rest) with (String c rest).
  unfold JS.parseInt_auto, JS.parseInt. cbn [JS.skip_space].
  change (JS.is_space "0") with false. cbv iota beta zeta.
  rewrite (Hx eq_refl). reflexivity.
Qed.

Lemma parseInt_auto_show_Z_suffix z c rest :
  0 <= z -> Str.is_digit c = false ->
  (z = 0 -> c <> "x"%char /\ c <> "X"%char) ->
  JS.parseInt_auto (JS.show_Z z +:+ String c rest) = JS.Int z.
Proof.
  intros Hz Hc Hx. destruct (show_Z_numeral z Hz) as (d & Hd & Hshow & Hval).
  rewrite Hshow, parseInt_auto_numeral_suffix, parseInt_numeral_suffix, Hval;
    [reflexivity | exact Hd | exact Hc | exact Hd |].
  intros ->. destruct (Hx (eq_sym Hval)) as [H1 H2].
  apply orb_false_intro; apply Ascii.eqb_neq; assumption.
Qed.

(** X21: one manifest entry.  For a bitrate written as a number followed
    by text that does not start with a digit (a unit such as [k]) and does
    not make it a hexadecimal numeral ([0x...]), the BANDWIDTH is that
    number times 1000, whatever the unit says, as long as the product is a
    safe integer; the RESOLUTION is the size as given and the playlist is
    [<name>.m3u8]. *)
Theorem master_entry_bandwidth name size n c unit :
  0 <= n ->
  n * 1000 <= JS.max_safe_integer ->
  Str.is_digit c = false ->
  (n = 0 -> c <> "x"%char /\ c <> "X"%char) ->
  master_entry {| Level.name := name; Level.size := size;
                  Level.bitrate := JS.show_Z n +:+ String c unit |}
  = "#EXT-X-STREAM-INF:BANDWIDTH=" +:+ JS.show_Z (n * 1000)
      +:+ ",RESOLUTION=" +:+ size +:+ nl +:+ name +:+ ".m3u8" +:+ nl.
Proof.
  intros Hn _ Hc Hx. unfold master_entry. cbn [Level.name Level.size Level.bitrate].
  rewrite (parseInt_auto_show_Z_suffix _ _ _ Hn Hc Hx). reflexivity.
Qed.

(** X22: the upload limit read from the environment.  Unset or empty, it
    is 500 MB; a decimal number (a safe integer) is taken as that many
    bytes; a number followed by a unit is taken as the number alone, so
    [500MB] means 500 bytes. *)
Theorem upload_limit_from_env n c unit :
  0 <= n <= JS.max_safe_integer ->
  Str.is_digit c = false ->
  max_upload_size_of_env None = JS.Int 524288000
  /\ max_upload_size_of_env (Some "") = JS.Int 524288000
  /\ max_upload_size_of_env (Some (JS.show_Z n)) = JS.Int n
  /\ max_upload_size_of_env (Some (JS.show_Z n +:+ String c unit)) = JS.Int n.
Proof.
  intros [Hn _] Hc. split; [reflexivity|]. split; [reflexivity|].
  unfold max_upload_size_of_env, header_value. split.
  - rewrite (show_Z_truthy _ Hn). apply parseInt_show_Z, Hn.
  - replace (Str.truthy (JS.show_Z n +:+ String c unit)) with true.
    + apply parseInt_show_Z_suffix; assumption.
    + destruct (show_Z_numeral n Hn) as (d & Hd & -> & _).
      destruct d; [congruence| ..]; reflexivity.
Qed.

(** *** The output directory *)

Lemma mkdir_in_ensure_dir_events storedName (f : gmap string node) p :
  In (EvMkdir p) (ensure_dir_events storedName f)
  <-> p = hls_dir storedName /\ f !! hls_dir storedName = None.
Proof.
  unfold ensure_dir_events.
  destruct (bool_decide (is_Some (f !! hls_dir storedName))) eqn:Hd.
  - apply bool_decide_eq_true in Hd as [n Hn]. cbn [In]. split; [intros []|].
    intros [_ H]. rewrite Hn in H. discriminate H.
  - apply bool_decide_eq_false in Hd. cbn [In]. split.
    + intros [[= <-] | []]. split; [reflexivity|].
      destruct (f !! hls_dir storedName) eqn:Hf; [|reflexivity].
      exfalso. apply Hd. eauto.
    + intros [-> _]. left. reflexivity.
Qed.

(** X23: the output directory is made only when nothing exists at its
    path: an upload of a media file records a [mkdir] exactly when the
    path was free, and then for the asset's own output directory; what is
    already there, a directory or a file, is left as it is. *)
Theorem output_directory_made_once file w p :
  Str.includes mediaMimeTypes (ReqFile.mimetype file) = true ->
  (In (EvMkdir p) (upload_events file w)
   <-> p = hls_dir (ReqFile.filename file)
       /\ fs w !! hls_dir (ReqFile.filename file) = None)
  /\ (forall n, fs w !! hls_dir (ReqFile.filename file) = Some n ->
        ensure_dir (ReqFile.filename file) (fs w) = fs w).
Proof.
  intros Hmedia. split.
  - rewrite (upload_events_media _ _ Hmedia), in_app_iff.
    rewrite mkdir_in_ensure_dir_events. split; [|auto].
    intros [H | H]; [exact H|]. exfalso.
    destruct (fst _); cbn [In] in H;
      repeat (destruct H as [H | H]; [discriminate H|]); exact H.
  - intros n Hn. unfold ensure_dir. rewrite (exists_true _ _ _ Hn). reflexivity.
Qed.

Lemma parse_name_no_ext name :
  Forall (fun c => Path.is_slash c = false) (Str.chars name) ->
  Path.extname name = "" ->
  Path.parse_name name = name.
Proof.
  intros Hns Hext. pose proof (basename_no_slash _ Hns) as Hb.
  unfold Path.parse_name, Path.extname, Path.basename in *.
  destruct (Path.ext_rev (Path.component_rev name)) as [|x er] eqn:He.
  - cbn [length drop]. exact Hb.
  - exfalso. apply (f_equal String.length) in Hext.
    rewrite length_of_chars, length_rev in Hext. discriminate Hext.
Qed.

(** X24: a media upload whose stored name has no extension (a file name,
    its path no directory) gets the path of the stored file itself as
    output directory: nothing is made, since the path exists, and the
    engine is asked to write its playlists below a regular file. *)
Theorem extensionless_media_has_no_directory p w :
  accepted p ->
  Str.includes mediaMimeTypes (part_mimetype p) = true ->
  Path.extname (sanitizeFilename (part_originalname p)) = "" ->
  storable (fs w) (sanitizeFilename (part_originalname p)) ->
  let stored := sanitizeFilename (part_originalname p) in
  let dest := Path.join uploadDir stored in
  let w' := snd (app_post_upload (Some p) w) in
  hls_dir stored = dest
  /\ (forall d, ~ In (EvMkdir d) (drop (length (trace w)) (trace w')))
  /\ In (EvEncodeStart (hls_command upload_options dest dest))
        (drop (length (trace w)) (trace w')).
Proof.
  intros Hacc Hmedia Hext _. cbv zeta.
  assert (Hdir : hls_dir (sanitizeFilename (part_originalname p))
                 = Path.join uploadDir (sanitizeFilename (part_originalname p))).
  { unfold hls_dir. rewrite parse_name_no_ext; auto using sanitizeFilename_no_slash. }
  split; [exact Hdir|].
  rewrite (app_post_upload_media _ _ Hacc Hmedia). cbn [fs trace].
  unfold ensure_dir_events. rewrite Hdir.
  rewrite (exists_true _ _ (File (part_content p))) by apply lookup_insert_eq.
  destruct (engine _ _) as [[msg|] f']; cbn [snd trace];
    rewrite <- !app_assoc, drop_app_length; cbn [app In]; split;
    try (intros d H; repeat (destruct H as [H | H]; [discriminate H|]); exact H);
    right; left; reflexivity.
Qed.


(** *** Stored names, their extensions and their routes *)

Lemma take_until_app_no_slash l rest :
  Forall (fun c => Path.is_slash c = false) l ->
  Path.take_until Path.is_slash (l ++ rest) = (l ++ Path.take_until Path.is_slash rest)%list.
Proof.
  induction 1 as [|c l Hc _ IH]; [reflexivity|]. cbn. rewrite Hc, IH. reflexivity.
Qed.

Lemma basename_leading_slash name :
  name <> "" ->
  Forall (fun c => Path.is_slash c = false) (Str.chars name) ->
  Path.basename (String "/" name) = name.
Proof.
  intros Hne Hns. unfold Path.basename, Path.component_rev.
  change (Str.chars (String "/" name)) with ("/"%char :: Str.chars name).
  cbn [rev].
  assert (Hr : Forall (fun c => Path.is_slash c = false) (rev (Str.chars name)))
    by (apply Forall_rev; exact Hns).
  destruct (rev (Str.chars name)) as [|x l] eqn:Hrev.
  { apply (f_equal (@rev ascii)) in Hrev. rewrite rev_involutive in Hrev.
    destruct name; [congruence | discriminate]. }
  inversion Hr as [|? ? Hx Hl]; subst.
  change ((x :: l) ++ ["/"%char])%list with (x :: (l ++ ["/"%char]))%list.
  cbn [Path.drop_while]. rewrite Hx.
  change (x :: (l ++ ["/"%char]))%list with ((x :: l) ++ ["/"%char])%list.
  rewrite (take_until_app_no_slash _ _ Hr). cbn [Path.take_until].
  change (Path.is_slash "/") with true. cbv iota.
  rewrite app_nil_r, <- Hrev, rev_involutive. apply of_chars_chars.
Qed.

(** X25: every stored name with a media extension is reachable: the
    request path [/<stored name>] under [/uploads] passes the middleware,
    matches the route and is answered by the range handler for that
    name. *)
Theorem stored_media_reaches_range_handler name range w :
  name <> "" ->
  Str.includes mediaMimeTypes (getMimeType (sanitizeFilename name)) = true ->
  let stored := sanitizeFilename name in
  uploads_middleware ("/" +:+ stored) = RangeRoute
  /\ app_get_uploads ("/" +:+ stored) range w
     = (ByHandler (fst (run_route (get_uploads stored range) w)),
        snd (run_route (get_uploads stored range) w)).
Proof.
  intros Hne Hmedia. cbv zeta.
  change ("/" +:+ sanitizeFilename name) with (String "/" (sanitizeFilename name)).
  assert (Hstored : sanitizeFilename name <> "")
    by (destruct name; [congruence | discriminate]).
  pose proof (sanitizeFilename_no_slash name) as Hns.
  assert (Hmw : uploads_middleware (String "/" (sanitizeFilename name)) = RangeRoute).
  { unfold uploads_middleware.
    rewrite (basename_leading_slash _ Hstored Hns), Hmedia. reflexivity. }
  split; [exact Hmw|].
  unfold app_get_uploads. rewrite Hmw.
  unfold route_filename. rewrite (existsb_no_slash _ Hns).
  destruct (sanitizeFilename name) eqn:Hs; [congruence|]. cbn [Str.truthy andb negb].
  destruct (run_route _ w). reflexivity.
Qed.

Lemma sanitize_char_dot c : Path.is_dot (sanitize_char c) = Path.is_dot c.
Proof.
  unfold sanitize_char. destruct (safe_char c) eqn:Hs; [reflexivity|].
  unfold Path.is_dot. destruct (Ascii.eqb_spec c "."); [subst; discriminate Hs | reflexivity].
Qed.

Lemma split_dot_sanitized l :
  Path.split_dot (map sanitize_char l)
  = match Path.split_dot l with
    | Some (e, b) => Some (map sanitize_char e, map sanitize_char b)
    | None => None
    end.
Proof.
  induction l as [|c l IH]; [reflexivity|].
  cbn [map Path.split_dot]. rewrite sanitize_char_dot, IH.
  destruct (Path.is_dot c); [reflexivity|].
  destruct (Path.split_dot l) as [[e b]|]; reflexivity.
Qed.

Lemma ext_rev_sanitized rb :
  Path.ext_rev (map sanitize_char rb) = map sanitize_char (Path.ext_rev rb).
Proof.
  unfold Path.ext_rev. rewrite split_dot_sanitized.
  destruct (Path.split_dot rb) as [[e b]|]; [|reflexivity].
  destruct b as [|d [|d' b]]; destruct e as [|x e]; cbn [map];
    rewrite ?sanitize_char_dot, ?map_app; try reflexivity.
  destruct (Path.is_dot d); reflexivity.
Qed.

Lemma of_chars_sanitized l :
  Str.of_chars (map sanitize_char l) = sanitizeFilename (Str.of_chars l).
Proof.
  unfold Str.of_chars. induction l as [|c l IH]; [reflexivity|].
  cbn. rewrite IH. reflexivity.
Qed.

Lemma component_rev_no_slash name :
  Forall (fun c => Path.is_slash c = false) (Str.chars name) ->
  Path.component_rev name = rev (Str.chars name).
Proof.
  intros H. unfold Path.component_rev.
  assert (Hr : Forall (fun c => Path.is_slash c = false) (rev (Str.chars name)))
    by (apply Forall_rev; exact H).
  rewrite (drop_while_no_slash _ Hr), (take_until_no_slash _ Hr). reflexivity.
Qed.

(** X26: sanitizing a name without slashes keeps its extension, up to the
    characters the sanitizer replaces; when the extension is made of
    allowed characters, the stored name has the very same extension and so
    the same type as the original name. *)
Theorem sanitizing_keeps_the_extension name :
  Forall (fun c => Path.is_slash c = false) (Str.chars name) ->
  Path.extname (sanitizeFilename name) = sanitizeFilename (Path.extname name)
  /\ (Forall (fun c => safe_char c = true) (Str.chars (Path.extname name)) ->
      Path.extname (sanitizeFilename name) = Path.extname name
      /\ getMimeType (sanitizeFilename name) = getMimeType name).
Proof.
  intros Hns.
  assert (Hext : Path.extname (sanitizeFilename name)
                 = sanitizeFilename (Path.extname name)).
  { unfold Path.extname.
    rewrite (component_rev_no_slash _ (sanitizeFilename_no_slash name)).
    rewrite (component_rev_no_slash _ Hns).
    rewrite sanitizeFilename_chars, <- map_rev, ext_rev_sanitized, <- map_rev.
    apply of_chars_sanitized. }
  split; [exact Hext|].
  intros Hsafe. rewrite (sanitizeFilename_fixed _ Hsafe) in Hext.
  split; [exact Hext|]. unfold getMimeType. rewrite Hext. reflexivity.
Qed.


(** *** Stored names in the second variant *)

Lemma split_dot_none l :
  Forall (fun c => Path.is_dot c = false) l -> Path.split_dot l = None.
Proof.
  induction 1 as [|c l Hc _ IH]; [reflexivity|]. cbn. rewrite Hc, IH. reflexivity.
Qed.

Lemma split_dot_some l e b :
  Path.split_dot l = Some (e, b) ->
  Forall (fun c => Path.is_dot c = false) e /\ l = (e ++ "."%char :: b)%list.
Proof.
  revert e. induction l as [|c l IH]; intros e H; [discriminate H|].
  cbn in H. destruct (Path.is_dot c) eqn:Hc.
  - injection H as <- <-. split; [constructor|].
    unfold Path.is_dot in Hc. apply Ascii.eqb_eq in Hc. subst c. reflexivity.
  - destruct (Path.split_dot l) as [[e' b']|]; [|discriminate H].
    injection H as <- <-. destruct (IH e' eq_refl) as [He ->].
    split; [constructor; assumption | reflexivity].
Qed.

(** An extension is empty or a dot followed by plain characters. *)
Lemma extname_shape name :
  Path.extname name = ""
  \/ exists e, Path.extname name = String "." e /\ Forall plain (Str.chars e).
Proof.
  unfold Path.extname.
  pose proof (take_until_forall
                (Path.drop_while Path.is_slash (rev (Str.chars name)))) as Hns.
  fold (Path.component_rev name) in Hns.
  unfold Path.ext_rev.
  destruct (Path.split_dot (Path.component_rev name)) as [[e b]|] eqn:Hsp; [|left; reflexivity].
  destruct (split_dot_some _ _ _ Hsp) as [Hdot Heq].
  rewrite Heq in Hns. apply Forall_app in Hns as [Hse _].
  assert (Hplain : Forall plain (Str.chars (Str.of_chars (rev e)))).
  { unfold Str.chars, Str.of_chars. rewrite list_ascii_of_string_of_list_ascii.
    apply Forall_rev. clear -Hdot Hse.
    induction e as [|c e IH]; constructor;
      inversion Hdot; inversion Hse; subst; [split; assumption | auto]. }
  assert (Hform : Str.of_chars (rev (e ++ ["."%char])) = String "." (Str.of_chars (rev e)))
    by (rewrite rev_app_distr; reflexivity).
  destruct b as [|d [|d' b]]; destruct e as [|x e];
    try (left; reflexivity);
    try (right; eexists; split; [exact Hform | exact Hplain]).
  destruct (Path.is_dot d); [left; reflexivity|].
  right. exists "". split; [reflexivity | constructor].
Qed.

Lemma string_last s : s <> "" -> exists stem c, s = stem +:+ String c "".
Proof.
  induction s as [|x s IH]; [congruence|]. intros _.
  destruct s as [|y s].
  - exists "", x. reflexivity.
  - destruct IH as (stem & c & Hs); [discriminate|].
    exists (String x stem), c. rewrite Hs. reflexivity.
Qed.

Lemma extname_plain_token token :
  Forall plain (Str.chars token) -> Path.extname token = "".
Proof.
  intros Hp. unfold Path.extname.
  assert (Hns : Forall (fun c => Path.is_slash c = false) (Str.chars token))
    by (eapply Forall_impl; [exact Hp | intros c [_ H]; exact H]).
  rewrite (component_rev_no_slash _ Hns). unfold Path.ext_rev.
  rewrite split_dot_none; [reflexivity|].
  apply Forall_rev. eapply Forall_impl; [exact Hp | intros c [H _]; exact H].
Qed.

Lemma extname_token_dot token :
  token <> "" -> Forall plain (Str.chars token) -> Path.extname (token +:+ ".") = ".".
Proof.
  intros Hne Hp. unfold Path.extname, Path.component_rev.
  rewrite chars_app. change (Str.chars ".") with ["."%char].
  rewrite rev_app_distr. cbn [rev app].
  cbn [Path.drop_while]. change (Path.is_slash ".") with false. cbv iota.
  cbn [Path.take_until]. change (Path.is_slash ".") with false. cbv iota.
  assert (Hns : Forall (fun c => Path.is_slash c = false) (rev (Str.chars token)))
    by (apply Forall_rev; eapply Forall_impl; [exact Hp | intros c [_ H]; exact H]).
  rewrite (take_until_no_slash _ Hns).
  unfold Path.ext_rev. cbn [Path.split_dot]. change (Path.is_dot ".") with true. cbv iota.
  assert (Hr : Forall plain (rev (Str.chars token))) by (apply Forall_rev; exact Hp).
  destruct (rev (Str.chars token)) as [|d [|d' l]] eqn:Hrev.
  - apply (f_equal (@rev ascii)) in Hrev. rewrite rev_involutive in Hrev.
    destruct token; [congruence | discriminate].
  - inversion Hr as [|? ? [Hd _] _]. rewrite Hd. reflexivity.
  - reflexivity.
Qed.

Lemma extname_after_token token name :
  token <> "" -> Forall plain (Str.chars token) ->
  Path.extname (token +:+ Path.extname name) = Path.extname name.
Proof.
  intros Hne Hp. destruct (extname_shape name) as [-> | (e & -> & He)].
  - replace (token +:+ "") with token; [apply extname_plain_token, Hp|].
    clear. induction token as [|c t IH]; [reflexivity|].
    change (String c t = String c (t +:+ "")). rewrite <- IH. reflexivity.
  - destruct e as [|x e]; [apply extname_token_dot; assumption|].
    destruct (string_last token Hne) as (stem & c & ->).
    rewrite append_assoc.
    change (String c "" +:+ String "." (String x e))
      with (String c ("." +:+ String x e)).
    apply extname_suffix; [|exact He|discriminate].
    rewrite chars_app in Hp. apply Forall_app in Hp as [_ Hc].
    inversion Hc as [|? ? [_ Hs] _]. exact Hs.
Qed.

(** X27: file naming in the second variant.  A file stored under a
    non-empty token without dot or slash keeps the extension of its
    original name, and so its MIME type; two files stored under different
    tokens of the same length have different names, whatever their
    original names. *)
Theorem legacy_stored_names token1 token2 name1 name2 :
  token1 <> "" ->
  Forall plain (Str.chars token1) ->
  String.length token1 = String.length token2 ->
  token1 <> token2 ->
  Path.extname (Legacy.stored_name token1 name1) = Path.extname name1
  /\ getMimeType (Legacy.stored_name token1 name1) = getMimeType name1
  /\ Legacy.stored_name token1 name1 <> Legacy.stored_name token2 name2.
Proof.
  intros Hne Hp Hlen Hdiff.
  assert (Hext : Path.extname (Legacy.stored_name token1 name1) = Path.extname name1)
    by (apply extname_after_token; assumption).
  split; [exact Hext|]. split.
  - unfold getMimeType. rewrite Hext. reflexivity.
  - apply legacy_names_distinct; assumption.
Qed.

End App.

(** ** Worked examples *)

Example ex_ext1 : Path.extname "index.coffee.md" = ".md". Proof. reflexivity. Qed.
Example ex_ext2 : Path.extname ".index" = "". Proof. reflexivity. Qed.
Example ex_ext3 : Path.extname "index." = ".". Proof. reflexivity. Qed.
Example ex_ext4 : Path.extname ".." = "". Proof. reflexivity. Qed.
Example ex_ext5 : Path.extname "..mkv" = ".mkv". Proof. reflexivity. Qed.
Example ex_ext6 : Path.extname "a/b.d/c" = "". Proof. reflexivity. Qed.
Example ex_ext7 : Path.extname ".a.b" = ".b". Proof. reflexivity. Qed.
Example ex_ext8 : Path.extname "a.." = ".". Proof. reflexivity. Qed.
Example ex_ext9 : Path.extname "..." = ".". Proof. reflexivity. Qed.
Example ex_base1 : Path.basename "/movie/master.m3u8" = "master.m3u8". Proof. reflexivity. Qed.
Example ex_base2 : Path.basename "/" = "". Proof. reflexivity. Qed.
Example ex_name1 : Path.parse_name "my.clip.mp4" = "my.clip". Proof. reflexivity. Qed.
Example ex_name2 : Path.parse_name ".mkv" = ".mkv". Proof. reflexivity. Qed.
Example ex_pi1 : JS.parseInt "2800k" = JS.Int 2800. Proof. reflexivity. Qed.
Example ex_pi2 : JS.parseInt "" = JS.NaN. Proof. reflexivity. Qed.
Example ex_pi3 : JS.parseInt " +12x" = JS.Int 12. Proof. reflexivity. Qed.
Example ex_split1 : Str.split "-" "0-99" = ["0"; "99"]. Proof. reflexivity. Qed.
Example ex_split2 : Str.split "-" "5-" = ["5"; ""]. Proof. reflexivity. Qed.
Example ex_split3 : Str.split "-" "-5" = [""; "5"]. Proof. reflexivity. Qed.
Example ex_split4 : Str.split "-" "5" = ["5"]. Proof. reflexivity. Qed.
Example ex_rm1 : Str.remove_first "bytes=" "bytes=0-99" = "0-99". Proof. reflexivity. Qed.
Example ex_rm2 : Str.remove_first "bytes=" "xbytes=0bytes=" = "x0bytes=". Proof. reflexivity. Qed.
Example ex_show : JS.show (JS.Int 2800000) = "2800000". Proof. reflexivity. Qed.
Example ex_show0 : JS.show (JS.Int 0) = "0". Proof. reflexivity. Qed.
Example ex_shown : JS.show (JS.Int (-3)) = "-3". Proof. reflexivity. Qed.
Example ex_mime : getMimeType "A.MP4" = "video/mp4". Proof. reflexivity. Qed.
Example ex_san : sanitizeFilename "my video (1).mp4" = "my_video__1_.mp4". Proof. reflexivity. Qed.

(** ** The claims on concrete requests *)

Lemma world50_stored : stored_media world50 "clip.mp4" sample_content.
Proof. split; reflexivity. Defined.

(** [Range: bytes=50-] on the 50-byte file: 416, world untouched. *)
Lemma start_beyond_file_is_416_witness :
  (stored_media world50 "clip.mp4" sample_content
   /\ file_size sample_content <= 50)
  /\ open_range_header 50 = "bytes=50-"
  /\ exists shown,
       get_uploads "clip.mp4" (Some (open_range_header 50)) world50
       = (Ok {| status := 416; headers := [];
                payload := Text ("Requested range not satisfiable" +:+ nl
                                   +:+ shown +:+ " >= "
                                   +:+ JS.show_Z (file_size sample_content)) |},
          world50)
       /\ (50 <= JS.max_safe_integer -> shown = JS.show_Z 50).
Proof.
  assert (Hle : file_size sample_content <= 50) by (vm_compute; discriminate).
  split; [split; [exact world50_stored | exact Hle]|].
  split; [reflexivity|].
  exact (proj2 (proj2 (start_beyond_file_is_416 world50 "clip.mp4" sample_content 50
                         world50_stored Hle))).
Defined.

(** [Range: bytes=10-19] on the 50-byte file: 206 with bytes 10 to 19. *)
Lemma valid_range_is_served_witness :
  (stored_media world50 "clip.mp4" sample_content
   /\ 0 <= 10 /\ 10 <= 19 /\ 19 < file_size sample_content)
  /\ range_header 10 19 = "bytes=10-19"
  /\ get_uploads "clip.mp4" (Some "bytes=10-19") world50
     = (Ok {| status := 206;
              headers := [ ("Content-Range", "bytes 10-19/50");
                           ("Accept-Ranges", "bytes");
                           ("Content-Length", "10");
                           ("Content-Type", "video/mp4") ];
              payload := Piped (Some (bytes_of "abcdefghij")) |},
        opened world50 "uploads/clip.mp4").
Proof.
  assert (H1 : 0 <= 10) by lia.
  assert (H2 : 10 <= 19) by lia.
  assert (H3 : 19 < file_size sample_content) by (vm_compute; reflexivity).
  split; [|split; [reflexivity|]].
  - repeat split; try reflexivity; try assumption.
  - exact (proj1 (proj2 (valid_range_is_served world50 "clip.mp4" sample_content
                           10 19 world50_stored H1 H2 H3))).
Defined.



(** The sample engine writes the three rendition playlists of the sample
    job and nothing else. *)
Lemma engine_ok_preserves_master :
  engine_preserves engine_ok (upload_job sample_file) (master_path "clip.mp4").
Proof.
  intros f. cbn.
  rewrite !lookup_insert_ne by discriminate. reflexivity.
Defined.

Lemma sample_output_ready :
  output_ready
    (snd (engine_ok (upload_job sample_file)
            (ensure_dir (ReqFile.filename sample_file) (fs world50))))
    (ReqFile.filename sample_file).
Proof. split; [reflexivity | vm_compute; discriminate]. Defined.

(** A first upload of the sample file with an engine that ends normally:
    the job is Published and the manifest is on disk. *)
Lemma manifest_written_only_after_engine_success_witness :
  (Str.includes mediaMimeTypes (ReqFile.mimetype sample_file) = true
   /\ engine_preserves engine_ok (upload_job sample_file)
        (master_path (ReqFile.filename sample_file))
   /\ fst (engine_ok (upload_job sample_file)
             (ensure_dir (ReqFile.filename sample_file) (fs world50))) = None
   /\ output_ready
        (snd (engine_ok (upload_job sample_file)
                (ensure_dir (ReqFile.filename sample_file) (fs world50))))
        (ReqFile.filename sample_file))
  /\ upload_job_state sample_encode sample_origin engine_ok sample_file world50 = Published
  /\ fs (snd (post_upload sample_encode sample_origin engine_ok (Some sample_file) world50))
     !! "uploads/clip/master.m3u8"
     = Some (File (bytes_of masterPlaylist)).
Proof.
  split; [split; [reflexivity
                 | split; [exact engine_ok_preserves_master
                          | split; [reflexivity | exact sample_output_ready]]]|].
  pose proof (manifest_written_only_after_engine_success sample_encode sample_origin
                engine_ok sample_file world50 eq_refl engine_ok_preserves_master) as H.
  cbv zeta in H.
  destruct (post_upload sample_encode sample_origin engine_ok
              (Some sample_file) world50) as [r w'].
  destruct (proj1 (proj2 H) eq_refl sample_output_ready) as (Hpub & _ & Hdisk & _).
  split; [exact Hpub | exact Hdisk].
Defined.

(** C2 as stated fails on its equivalence: the sample file is uploaded and
    published, then uploaded again while the engine fails.  The second job
    is Failed and answered 500, yet the manifest of the first is on disk.
    The same happens to the first upload of [clip.webm], whose output
    directory is that of [clip.mp4]. *)
Lemma failed_job_keeps_earlier_manifest :
  let upload := fun e part =>
    app_post_upload sample_max sample_formatBytes sample_encode sample_origin e (Some part) in
  let '(r1, w1) := upload engine_ok sample_part empty_world in
  let '(r2, w2) := upload engine_fail sample_part w1 in
  let '(r3, w3) := upload engine_fail part_webm w1 in
  status r1 = 200
  /\ job_state "uploads/clip/master.m3u8" (trace w1) = Published
  /\ status r2 = 500
  /\ job_state "uploads/clip/master.m3u8" (drop (length (trace w1)) (trace w2)) = Failed
  /\ fs w2 !! "uploads/clip/master.m3u8" = Some (File (bytes_of masterPlaylist))
  /\ master_path "clip.webm" = "uploads/clip/master.m3u8"
  /\ status r3 = 500
  /\ job_state "uploads/clip/master.m3u8" (drop (length (trace w1)) (trace w3)) = Failed
  /\ fs w3 !! "uploads/clip/master.m3u8" = Some (File (bytes_of masterPlaylist)).
Proof.
  vm_compute. repeat split.
Qed.

Lemma media_upload_encodes_once_witness :
  Str.includes mediaMimeTypes (ReqFile.mimetype sample_file) = true
  /\ encode_count (upload_events sample_encode sample_origin engine_ok
                     sample_file world50) = 1%nat.
Proof.
  split; [reflexivity|].
  exact (proj1 (media_upload_encodes_once sample_encode sample_origin engine_ok
                  sample_file world50 eq_refl)).
Defined.

Lemma sample_job_published :
  upload_job_state sample_encode sample_origin engine_ok sample_file world50 = Published.
Proof. vm_compute. reflexivity. Defined.

Lemma published_manifest_lists_renditions_witness :
  (Str.includes mediaMimeTypes (ReqFile.mimetype sample_file) = true
   /\ upload_job_state sample_encode sample_origin engine_ok sample_file world50
      = Published)
  /\ fs (snd (post_upload sample_encode sample_origin engine_ok
                (Some sample_file) world50))
     !! "uploads/clip/master.m3u8"
     = Some (File (bytes_of (unlines manifest_lines))).
Proof.
  split; [split; [reflexivity | exact sample_job_published]|].
  exact (proj1 (published_manifest_lists_renditions sample_encode sample_origin
                  engine_ok sample_file world50 eq_refl sample_job_published)).
Defined.

(** C5 as stated fails: the sample file is uploaded twice in a row.  The
    first request leaves the job Published, and the second one invokes the
    engine again. *)
Lemma second_upload_encodes_again :
  let upload := app_post_upload sample_max sample_formatBytes sample_encode
                  sample_origin engine_ok (Some sample_part) in
  let '(r1, w1) := upload empty_world in
  let '(r2, w2) := upload w1 in
  status r1 = 200
  /\ is_Some (fs w1 !! "uploads/clip/master.m3u8")
  /\ job_state "uploads/clip/master.m3u8" (trace w1) = Published
  /\ encode_count (trace w1) = 1%nat
  /\ status r2 = 200
  /\ encode_count (trace w2) = 2%nat
  /\ encode_count (drop (length (trace w1)) (trace w2)) = 1%nat.
Proof.
  vm_compute. repeat split; eauto.
Qed.

Lemma part_a_accepted : accepted sample_max part_a.
Proof. split; [reflexivity | vm_compute; reflexivity]. Defined.

Lemma part_b_accepted : accepted sample_max part_b.
Proof. split; [reflexivity | vm_compute; reflexivity]. Defined.

Lemma empty_storable name : file_name name -> storable (fs empty_world) name.
Proof.
  intros Hname. split; [exact Hname|].
  unfold not_directory, empty_world. cbn [fs]. rewrite lookup_empty. discriminate.
Defined.

Lemma a_b_storable : storable (fs empty_world) "a_b.txt".
Proof. apply empty_storable. repeat split; try discriminate; apply Nat.leb_le; reflexivity. Defined.


Lemma video_storable : storable (fs empty_world) "video.mp4".
Proof. apply empty_storable. repeat split; try discriminate; apply Nat.leb_le; reflexivity. Defined.

Lemma noext_storable : storable (fs empty_world) "clip".
Proof. apply empty_storable. repeat split; try discriminate; apply Nat.leb_le; reflexivity. Defined.

Lemma colliding_names_share_one_path_witness :
  (accepted sample_max part_a /\ accepted sample_max part_b
   /\ sanitizeFilename (part_originalname part_a) = sanitizeFilename (part_originalname part_b)
   /\ storable (fs empty_world) "a_b.txt")
  /\ fs (snd (multer_single sample_max (Some part_b)
                (snd (multer_single sample_max (Some part_a) empty_world))))
     !! "uploads/a_b.txt"
     = Some (File (bytes_of "second")).
Proof.
  split; [split; [exact part_a_accepted
                 | split; [exact part_b_accepted
                          | split; [reflexivity | exact a_b_storable]]]|].
  pose proof (colliding_names_share_one_path sample_max part_a part_b empty_world
                part_a_accepted part_b_accepted eq_refl
                a_b_storable) as H.
  cbv zeta in H.
  destruct (multer_single sample_max (Some part_a) empty_world) as [r1 w1].
  cbn [snd].
  destruct (multer_single sample_max (Some part_b) w1) as [r2 w2].
  cbn [snd].
  exact (proj1 (proj2 (proj2 (proj2 H)))).
Defined.

(** C6 as stated fails on its second half: the uploads ["a b.txt"] and
    ["a_b.txt"] are both accepted and answered with the same URL; one file
    is stored, and it holds the bytes of the second upload. *)
Lemma second_upload_overwrites_first :
  let upload := app_post_upload sample_max sample_formatBytes sample_encode
                  sample_origin engine_ok in
  let '(r1, w1) := upload (Some part_a) empty_world in
  let '(r2, w2) := upload (Some part_b) w1 in
  part_originalname part_a <> part_originalname part_b
  /\ part_content part_a <> part_content part_b
  /\ status r1 = 200 /\ status r2 = 200
  /\ payload r1 = payload r2
  /\ fs w1 !! "uploads/a_b.txt" = Some (File (part_content part_a))
  /\ fs w2 !! "uploads/a_b.txt" = Some (File (part_content part_b))
  /\ map fst (map_to_list (fs w2)) = ["uploads/a_b.txt"].
Proof.
  vm_compute. repeat split; discriminate.
Qed.

Lemma fifty_is_safe : JS.safe (JS.parseInt_opt (Some "50")).
Proof. vm_compute. split; discriminate. Defined.

(** A response without content type for [/video.mp4]: stored as a raw
    file of type [application/octet-stream]. *)
Lemma url_type_is_header_or_default_witness :
  (Str.truthy sample_url = true
   /\ sample_fetch sample_url = Some untyped_response
   /\ sample_pathname sample_url = Some "/video.mp4"
   /\ storable (fs empty_world) "video.mp4"
   /\ JS.safe (JS.parseInt_opt (content_length untyped_response)))
  /\ post_upload_url sample_encode sample_origin engine_ok sample_fetch sample_pathname
       (Some sample_url) empty_world
     = (Ok (url_raw_response sample_encode sample_origin "video.mp4" (JS.Int 50)
              "application/octet-stream"),
        {| fs := <[ "uploads/video.mp4" := File sample_content ]> ∅;
           trace := [EvFetch sample_url; EvWriteFile "uploads/video.mp4"] |}).
Proof.
  split; [repeat split; try apply video_storable; try apply fifty_is_safe|].
  exact (proj1 (url_type_is_header_or_default sample_encode sample_origin engine_ok
                  sample_fetch sample_pathname sample_url untyped_response "/video.mp4"
                  empty_world eq_refl eq_refl eq_refl
                  video_storable fifty_is_safe) eq_refl).
Defined.

(** C8 as stated fails on its middle step: without a content type the
    name [video.mp4] would be guessed to be [video/mp4], a media type, but
    the handler takes [application/octet-stream], answers with a file URL
    and never invokes the engine. *)
Lemma missing_content_type_ignores_extension :
  let '(r, w') := post_upload_url sample_encode sample_origin engine_ok sample_fetch
                    sample_pathname (Some sample_url) empty_world in
  content_type untyped_response = None
  /\ url_filename "/video.mp4" untyped_response = "video.mp4"
  /\ getMimeType "video.mp4" = "video/mp4"
  /\ spec_url_mimeType (content_type untyped_response) "video.mp4" = "video/mp4"
  /\ Str.includes mediaMimeTypes "video/mp4" = true
  /\ url_mimeType untyped_response = "application/octet-stream"
  /\ Str.includes mediaMimeTypes (url_mimeType untyped_response) = false
  /\ r = Ok (json 200
               [("message", JStr "File downloaded successfully via URL.");
                ("watchUrl", JNull);
                ("fileUrl", JStr "http://localhost:8000/uploads/video.mp4");
                ("metadata", JMetadata "video.mp4" (JS.Int 50) "application/octet-stream")])
  /\ encode_count (trace w') = 0%nat.
Proof.
  vm_compute. repeat split.
Qed.

(** The manifest of the published package, requested with a range. *)
Lemma manifests_and_segments_are_served_statically_witness :
  (Str.toLowerCase (Path.extname (Path.basename "/clip/master.m3u8")) = ".m3u8"
   \/ Str.toLowerCase (Path.extname (Path.basename "/clip/master.m3u8")) = ".ts")
  /\ app_get_uploads sample_max sample_formatBytes "/clip/master.m3u8"
       (Some "bytes=0-9") world_published
     = (ByStatic "/clip/master.m3u8", world_published).
Proof.
  split; [left; reflexivity|].
  exact (proj1 (proj2 (manifests_and_segments_are_served_statically
                         sample_max sample_formatBytes "/clip/master.m3u8"
                         (Some "bytes=0-9") world_published (or_introl eq_refl)))).
Defined.

(** C9 as stated fails: with the same range header, the source file of a
    published package is answered by the range handler, while its manifest
    and its segment are handed to the static file server; asked directly,
    the range handler refuses both names. *)
Lemma manifest_and_segment_leave_the_range_route :
  let get := fun reqPath =>
    fst (app_get_uploads sample_max sample_formatBytes reqPath
           (Some "bytes=0-9") world_published) in
  uploads_middleware "/clip.mp4" = RangeRoute
  /\ uploads_middleware "/clip/master.m3u8" = StaticServer
  /\ uploads_middleware "/clip/720p_000.ts" = StaticServer
  /\ get "/clip.mp4"
     = ByHandler {| status := 206;
                    headers := [ ("Content-Range", "bytes 0-9/50");
                                 ("Accept-Ranges", "bytes");
                                 ("Content-Length", "10");
                                 ("Content-Type", "video/mp4") ];
                    payload := Piped (Some (bytes_of "0123456789")) |}
  /\ get "/clip/master.m3u8" = ByStatic "/clip/master.m3u8"
  /\ get "/clip/720p_000.ts" = ByStatic "/clip/720p_000.ts"
  /\ fst (get_uploads "clip/master.m3u8" (Some "bytes=0-9") world_published)
     = Ok (send 400 "File is not a supported media type.")
  /\ fst (get_uploads "clip/720p_000.ts" (Some "bytes=0-9") world_published)
     = Ok (send 400 "File is not a supported media type.").
Proof.
  vm_compute. repeat split.
Qed.

(** A stored [movie.mkv], uploaded as [video/mkv]. *)
Lemma mkv_and_avi_are_rejected_witness :
  ((Str.toLowerCase (Path.extname (ReqFile.filename mkv_file)) = ".mkv"
    \/ Str.toLowerCase (Path.extname (ReqFile.filename mkv_file)) = ".avi")
   /\ (ReqFile.mimetype mkv_file = "video/mkv" \/ ReqFile.mimetype mkv_file = "video/avi"))
  /\ getMimeType "movie.mkv" = "video/x-matroska"
  /\ get_watch sample_encode "movie.mkv" world_mkv
     = (Ok (send 400 "File is not a supported media type."), world_mkv).
Proof.
  pose proof (mkv_and_avi_are_rejected sample_encode sample_origin engine_ok
                mkv_file world_mkv (or_introl eq_refl) (or_introl eq_refl)) as H.
  cbv zeta in H.
  destruct H as (Hmkv & _ & _ & _ & _ & _ & Hrej).
  split; [split; left; reflexivity|].
  split; [exact (Hmkv eq_refl)|].
  assert (Hs : is_Some (fs world_mkv !! Path.join uploadDir (ReqFile.filename mkv_file)))
    by (exists (File sample_content); reflexivity).
  exact (proj1 (Hrej world_mkv Hs)).
Defined.

(** A window whose start lies inside the file but after its end,
    [bytes=30-20]: the read stream refuses it, the error reaches the
    error-handling middleware and the answer is 500, not 416. *)
Example reversed_window_is_not_416 :
  status (fst (run_route sample_max sample_formatBytes
                 (get_uploads "clip.mp4" (Some "bytes=30-20")) world50))
  = 500.
Proof. reflexivity. Qed.

(** A header without a start, [bytes=-5]: the start is [NaN], which is not
    [>= fileSize]. *)
Example suffix_range_start_is_NaN :
  range_start "bytes=-5" = JS.NaN /\ range_end "bytes=-5" 50 = JS.Int 5.
Proof. split; reflexivity. Qed.

(** No [Range] header: the whole file with status 200. *)
Example whole_file_is_200 :
  fst (get_uploads "clip.mp4" None world50)
  = Ok {| status := 200;
          headers := [("Content-Length", "50"); ("Content-Type", "video/mp4")];
          payload := Piped (Some sample_content) |}.
Proof. reflexivity. Qed.

(** An engine failure on a first upload: 500, job Failed, no manifest. *)
Example failed_upload_leaves_no_manifest :
  let '(r, w) := app_post_upload sample_max sample_formatBytes sample_encode
                   sample_origin engine_fail (Some sample_part) empty_world in
  r = json 500 [("error", JStr "Error processing video for streaming.")]
  /\ fs w !! "uploads/clip/master.m3u8" = None
  /\ job_state "uploads/clip/master.m3u8" (trace w) = Failed.
Proof. vm_compute. repeat split. Qed.

(** ** The further properties on concrete requests *)

Lemma mime_tables_round_trip_witness :
  (getMimeType "Movie.MKV" <> "application/octet-stream"
   /\ Str.table_get mimeToExt "video/x-matroska" = Some ".mkv"
   /\ Path.is_slash "e" = false)
  /\ getExtensionFromMime (Some (getMimeType "Movie.MKV")) = ".mkv"
  /\ getExtensionFromMime (Some "video/x-matroska") = ".mkv"
  /\ getMimeType ("downloaded-fil" +:+ String "e" ".mkv") = "video/x-matroska".
Proof.
  assert (H1 : getMimeType "Movie.MKV" <> "application/octet-stream") by discriminate.
  split; [repeat split; assumption|].
  exact (mime_tables_round_trip "Movie.MKV" "video/x-matroska" ".mkv" "downloaded-fil" "e"
           H1 eq_refl eq_refl).
Defined.

Lemma stored_name_is_one_segment_witness :
  "my clip.mp4" <> ""
  /\ route_filename "/my_clip.mp4" = Some "my_clip.mp4".
Proof.
  assert (H : "my clip.mp4" <> "") by discriminate.
  split; [exact H|].
  exact (proj2 (proj2 (proj2 (stored_name_is_one_segment "my clip.mp4" H)))).
Defined.

Lemma rejected_uploads_change_nothing_witness :
  Str.includes allowedMimeTypes (part_mimetype part_exe) = false
  /\ app_post_upload sample_max sample_formatBytes sample_encode sample_origin engine_ok
       (Some part_exe) world50
     = (json 400 [("error", JStr "File type not supported!")], world50).
Proof.
  split; [reflexivity|].
  exact (proj1 (rejected_uploads_change_nothing sample_max sample_formatBytes sample_encode
                  sample_origin engine_ok part_exe world50 eq_refl)).
Defined.

(** The 50-byte sample against a limit of 10 bytes. *)
Lemma oversized_upload_is_413_witness :
  (Str.includes allowedMimeTypes (part_mimetype sample_part) = true
   /\ 10 < Z.of_nat (length (part_content sample_part)))
  /\ fst (app_post_upload 10 sample_formatBytes sample_encode sample_origin engine_ok
            (Some sample_part) empty_world)
     = json 413 [("error", JStr "File is too large. Maximum size is 500 MB.")].
Proof.
  assert (H : 10 < Z.of_nat (length (part_content sample_part)))
    by (vm_compute; reflexivity).
  split; [split; [reflexivity | exact H]|].
  pose proof (oversized_upload_is_413 10 sample_formatBytes sample_encode sample_origin
                engine_ok sample_part empty_world eq_refl H) as Hthm.
  destruct (app_post_upload 10 sample_formatBytes sample_encode sample_origin engine_ok
              (Some sample_part) empty_world) as [r w'].
  exact (proj1 Hthm).
Defined.

Lemma plain_upload_is_stored_witness :
  (accepted sample_max part_a
   /\ Str.includes mediaMimeTypes (part_mimetype part_a) = false
   /\ storable (fs empty_world) "a_b.txt")
  /\ app_post_upload sample_max sample_formatBytes sample_encode sample_origin engine_ok
       (Some part_a) empty_world
     = (json 200 [("message", JStr "File uploaded successfully.");
                  ("fileUrl", JStr "http://localhost:8000/uploads/a_b.txt")],
        {| fs := <[ "uploads/a_b.txt" := File (bytes_of "first") ]> ∅;
           trace := [EvWriteFile "uploads/a_b.txt"] |}).
Proof.
  split; [split; [exact part_a_accepted | split; [reflexivity | exact a_b_storable]]|].
  exact (plain_upload_is_stored sample_max sample_formatBytes sample_encode sample_origin
           engine_ok part_a empty_world part_a_accepted eq_refl a_b_storable).
Defined.





Lemma no_range_serves_whole_file_witness :
  stored_media world50 "clip.mp4" sample_content
  /\ fst (get_uploads "clip.mp4" None world50)
     = Ok {| status := 200;
             headers := [("Content-Length", "50"); ("Content-Type", "video/mp4")];
             payload := Piped (Some sample_content) |}.
Proof.
  split; [exact world50_stored|].
  exact (f_equal fst (proj1 (no_range_serves_whole_file world50 "clip.mp4" sample_content
                               world50_stored))).
Defined.

Lemma missing_file_is_404_witness :
  fs world50 !! Path.join uploadDir "other.mp4" = None
  /\ get_uploads "other.mp4" (Some "bytes=0-9") world50
     = (Ok (send 404 "File not found."), world50).
Proof.
  split; [reflexivity|].
  exact (proj1 (missing_file_is_404 sample_encode "other.mp4" (Some "bytes=0-9") world50
                  eq_refl)).
Defined.

(** [bytes=40-99] on the 50-byte file: 60 bytes announced, 10 sent. *)
Lemma end_beyond_file_truncates_body_witness :
  (stored_media world50 "clip.mp4" sample_content
   /\ 0 <= 40 < file_size sample_content
   /\ file_size sample_content <= 99 <= JS.max_safe_integer)
  /\ fst (get_uploads "clip.mp4" (Some "bytes=40-99") world50)
     = Ok {| status := 206;
             headers := [ ("Content-Range", "bytes 40-99/50");
                          ("Accept-Ranges", "bytes");
                          ("Content-Length", "60");
                          ("Content-Type", "video/mp4") ];
             payload := Piped (Some (bytes_of "EFGHIJKLMN")) |}.
Proof.
  assert (H1 : 0 <= 40 < file_size sample_content) by (vm_compute; split; [discriminate | reflexivity]).
  assert (H2 : file_size sample_content <= 99 <= JS.max_safe_integer)
    by (vm_compute; split; discriminate).
  split; [split; [exact world50_stored | split; assumption]|].
  exact (f_equal fst (proj1 (end_beyond_file_truncates_body world50 "clip.mp4"
                               sample_content 40 99 world50_stored H1 H2))).
Defined.

Lemma watch_page_of_published_clip :
  get_watch sample_encode "clip.mp4" world_published
  = (Ok {| status := 200; headers := [];
           payload := WatchPage "/uploads/clip.mp4/master.m3u8" "clip.mp4" 50 "video/mp4" |},
     world_published).
Proof. reflexivity. Defined.

(** The page of the published sample points at
    [/uploads/clip.mp4/master.m3u8]; the manifest is
    [uploads/clip/master.m3u8]. *)
Lemma watch_page_url_is_not_manifest_path_witness :
  master_path "clip.mp4" = "uploads/clip/master.m3u8"
  /\ "/" +:+ master_path "clip.mp4"
     <> "/uploads/" +:+ sample_encode "clip.mp4" +:+ "/master.m3u8".
Proof.
  split; [reflexivity|].
  exact (proj2 (proj2 (watch_page_url_is_not_manifest_path sample_encode "clip.mp4"
                         world_published _ _ watch_page_of_published_clip eq_refl))
           eq_refl).
Defined.

Lemma multi_range_is_first_range_witness :
  (0 <= 0 /\ 0 <= 9)
  /\ get_uploads "clip.mp4" (Some "bytes=0-9,20-29") world50
     = get_uploads "clip.mp4" (Some "bytes=0-9") world50.
Proof.
  assert (H0 : 0 <= 0) by lia. assert (H9 : 0 <= 9) by lia.
  split; [split; assumption|].
  exact (multi_range_is_first_range "clip.mp4" 0 9 "20-29" world50 H0 H9).
Defined.

Lemma failed_url_ingestion_stores_nothing_witness :
  (Str.truthy sample_url = true
   /\ (no_fetch sample_url = None \/ sample_pathname sample_url = None))
  /\ post_upload_url sample_encode sample_origin engine_ok no_fetch sample_pathname
       (Some sample_url) world50
     = (Ok (json 500 [("error", JStr "Failed to download file from the provided URL.")]),
        {| fs := fs world50; trace := [EvFetch sample_url] |}).
Proof.
  split; [split; [reflexivity | left; reflexivity]|].
  exact (proj1 (failed_url_ingestion_stores_nothing sample_encode sample_origin engine_ok
                  no_fetch sample_pathname sample_url world50 eq_refl
                  (or_introl eq_refl))).
Defined.

Lemma engine_ok_preserves_download :
  engine_preserves engine_ok
    (hls_command upload_url_options
       (Path.join uploadDir (url_stored_name "/video.mp4" typed_response))
       (hls_dir (url_stored_name "/video.mp4" typed_response)))
    (Path.join uploadDir (url_stored_name "/video.mp4" typed_response)).
Proof.
  intros f. cbn.
  rewrite !lookup_insert_ne by discriminate. reflexivity.
Defined.

Lemma url_media_ingestion_witness :
  (Str.truthy sample_url = true
   /\ typed_fetch sample_url = Some typed_response
   /\ sample_pathname sample_url = Some "/video.mp4"
   /\ Str.includes mediaMimeTypes (url_mimeType typed_response) = true
   /\ storable (fs empty_world) "video.mp4"
   /\ JS.safe (JS.parseInt_opt (content_length typed_response)))
  /\ fs (snd (post_upload_url sample_encode sample_origin engine_ok typed_fetch
                sample_pathname (Some sample_url) empty_world))
     !! "uploads/video.mp4"
     = Some (File sample_content).
Proof.
  split; [repeat split; try apply video_storable; try apply fifty_is_safe|].
  pose proof (url_media_ingestion sample_encode sample_origin engine_ok typed_fetch
                sample_pathname sample_url typed_response "/video.mp4" empty_world
                eq_refl eq_refl eq_refl eq_refl video_storable fifty_is_safe
                engine_ok_preserves_download) as H.
  cbv zeta in H.
  destruct (post_upload_url sample_encode sample_origin engine_ok typed_fetch
              sample_pathname (Some sample_url) empty_world) as [r w'].
  exact (proj1 H).
Defined.

(** The bitrate [2800k] of the first rendition. *)
Lemma master_entry_bandwidth_witness :
  (0 <= 2800 /\ 2800 * 1000 <= JS.max_safe_integer /\ Str.is_digit "k" = false
   /\ (2800 = 0 -> "k"%char <> "x"%char /\ "k"%char <> "X"%char))
  /\ master_entry {| Level.name := "720p"; Level.size := "1280x720";
                     Level.bitrate := "2800k" |}
     = "#EXT-X-STREAM-INF:BANDWIDTH=2800000,RESOLUTION=1280x720" +:+ nl
        +:+ "720p.m3u8" +:+ nl.
Proof.
  assert (H : 0 <= 2800) by lia.
  assert (Hsafe : 2800 * 1000 <= JS.max_safe_integer) by (vm_compute; discriminate).
  assert (Hx : 2800 = 0 -> "k"%char <> "x"%char /\ "k"%char <> "X"%char)
    by (intros _; split; discriminate).
  split; [split; [exact H | split; [exact Hsafe | split; [reflexivity | exact Hx]]]|].
  exact (master_entry_bandwidth "720p" "1280x720" 2800 "k" "" H Hsafe eq_refl Hx).
Defined.

(** [MAX_UPLOAD_SIZE=500MB] is a limit of 500 bytes. *)
Lemma upload_limit_from_env_witness :
  (0 <= 500 <= JS.max_safe_integer /\ Str.is_digit "M" = false)
  /\ max_upload_size_of_env (Some "500MB") = JS.Int 500.
Proof.
  assert (H : 0 <= 500 <= JS.max_safe_integer) by (vm_compute; split; discriminate).
  split; [split; [exact H | reflexivity]|].
  exact (proj2 (proj2 (proj2 (upload_limit_from_env 500 "M" "B" H eq_refl)))).
Defined.

Lemma output_directory_made_once_witness :
  Str.includes mediaMimeTypes (ReqFile.mimetype sample_file) = true
  /\ In (EvMkdir "uploads/clip")
        (upload_events sample_encode sample_origin engine_ok sample_file world50)
  /\ ~ In (EvMkdir "uploads/clip")
          (upload_events sample_encode sample_origin engine_ok sample_file world_published).
Proof.
  split; [reflexivity|].
  pose proof (output_directory_made_once sample_encode sample_origin engine_ok sample_file
                world50 "uploads/clip" eq_refl) as H1.
  pose proof (output_directory_made_once sample_encode sample_origin engine_ok sample_file
                world_published "uploads/clip" eq_refl) as H2.
  split.
  - apply (proj1 H1). split; reflexivity.
  - intros Hin. apply (proj1 H2) in Hin. destruct Hin as [_ Hnone]. discriminate Hnone.
Defined.

Lemma part_noext_accepted : accepted sample_max part_noext.
Proof. split; [reflexivity | vm_compute; reflexivity]. Defined.

Lemma extensionless_media_has_no_directory_witness :
  (accepted sample_max part_noext
   /\ Str.includes mediaMimeTypes (part_mimetype part_noext) = true
   /\ Path.extname (sanitizeFilename (part_originalname part_noext)) = ""
   /\ storable (fs empty_world) "clip")
  /\ hls_dir "clip" = "uploads/clip"
  /\ Path.join uploadDir "clip" = "uploads/clip".
Proof.
  split; [split; [exact part_noext_accepted
                 | split; [reflexivity | split; [reflexivity | exact noext_storable]]]|].
  split; [|reflexivity].
  exact (proj1 (extensionless_media_has_no_directory sample_max sample_formatBytes
                  sample_encode sample_origin engine_ok part_noext empty_world
                  part_noext_accepted eq_refl eq_refl noext_storable)).
Defined.

Lemma stored_media_reaches_range_handler_witness :
  ("my clip.mp4" <> ""
   /\ Str.includes mediaMimeTypes (getMimeType (sanitizeFilename "my clip.mp4")) = true)
  /\ uploads_middleware "/my_clip.mp4" = RangeRoute.
Proof.
  assert (H : "my clip.mp4" <> "") by discriminate.
  split; [split; [exact H | reflexivity]|].
  exact (proj1 (stored_media_reaches_range_handler sample_max sample_formatBytes
                  "my clip.mp4" None world50 H eq_refl)).
Defined.

Lemma sanitizing_keeps_the_extension_witness :
  Forall (fun c => Path.is_slash c = false) (Str.chars "my clip (1).mp4")
  /\ Path.extname (sanitizeFilename "my clip (1).mp4") = ".mp4".
Proof.
  assert (H : Forall (fun c => Path.is_slash c = false) (Str.chars "my clip (1).mp4"))
    by (repeat constructor).
  split; [exact H|].
  exact (proj1 (sanitizing_keeps_the_extension "my clip (1).mp4" H)).
Defined.

(** Two uploads both called [clip.mp4], stored under two tokens. *)
Lemma legacy_stored_names_witness :
  ("1b9d6bcd-bbfd-4b2d-9b5d-ab8dfbbd4bed" <> ""
   /\ Forall plain (Str.chars "1b9d6bcd-bbfd-4b2d-9b5d-ab8dfbbd4bed")
   /\ String.length "1b9d6bcd-bbfd-4b2d-9b5d-ab8dfbbd4bed"
      = String.length "9c858901-8a57-4791-81fe-4c455b099bc9"
   /\ "1b9d6bcd-bbfd-4b2d-9b5d-ab8dfbbd4bed" <> "9c858901-8a57-4791-81fe-4c455b099bc9")
  /\ Legacy.stored_name "1b9d6bcd-bbfd-4b2d-9b5d-ab8dfbbd4bed" "clip.mp4"
     = "1b9d6bcd-bbfd-4b2d-9b5d-ab8dfbbd4bed.mp4"
  /\ Legacy.stored_name "1b9d6bcd-bbfd-4b2d-9b5d-ab8dfbbd4bed" "clip.mp4"
     <> Legacy.stored_name "9c858901-8a57-4791-81fe-4c455b099bc9" "clip.mp4".
Proof.
  assert (H1 : "1b9d6bcd-bbfd-4b2d-9b5d-ab8dfbbd4bed" <> "") by discriminate.
  assert (H2 : Forall plain (Str.chars "1b9d6bcd-bbfd-4b2d-9b5d-ab8dfbbd4bed"))
    by (repeat constructor).
  assert (H4 : "1b9d6bcd-bbfd-4b2d-9b5d-ab8dfbbd4bed" <> "9c858901-8a57-4791-81fe-4c455b099bc9")
    by discriminate.
  split; [repeat split; assumption|].
  split; [reflexivity|].
  exact (proj2 (proj2 (legacy_stored_names "1b9d6bcd-bbfd-4b2d-9b5d-ab8dfbbd4bed"
                         "9c858901-8a57-4791-81fe-4c455b099bc9" "clip.mp4" "clip.mp4"
                         H1 H2 eq_refl H4))).
Defined.

(** A response announcing 50 bytes. *)
Lemma url_reported_size_witness :
  (0 <= 50 <= JS.max_safe_integer
   /\ content_length typed_response = Some (JS.show_Z 50))
  /\ url_size typed_response = JS.Int 50.
Proof.
  assert (H : 0 <= 50 <= JS.max_safe_integer) by (vm_compute; split; discriminate).
  split; [split; [exact H | reflexivity]|].
  exact (proj2 (proj2 (proj2 (url_reported_size typed_response))) 50 H eq_refl).
Defined.
